(** * bifrost: bridge construction and the S3 adapter

    A shallow embedding of [bifrost.NewRainbowBridge] with its three adapter
    constructors and of the S3 adapter's methods ([UploadFile], [Config],
    [Disconnect], [IsConnected], [UploadFolder]), followed by the properties
    the specification states about them.

    Go values are modelled as follows.
    - a pointer that may be nil is an [option];
    - a pair of results [(v, err)] is a pair of options;
    - [int64] is [Z], with the wrap-around of a multiplication written out;
    - [map[string]T] is [gmap string T];
    - calls that leave the process (filesystem, vendor SDKs, the logger) are
      answered by an environment record [Env] and recorded, in program order,
      in a trace of [Event]s. *)

From Stdlib Require Import ZArith Ascii String List.
From stdpp Require Import base option list strings gmap fin_maps.

Local Open Scope string_scope.
Local Open Scope Z_scope.
Local Open Scope list_scope.

(** ** Go runtime pieces used by the sources *)

Module gofmt.

(** [fmt.Sprintf] restricted to the only verb the sources use, [%s], with
    string operands (a [Stringer] operand is passed as its [String()]).
    A verb without operand prints Go's [%!s(MISSING)]. *)
Fixpoint Sprintf (format : string) (args : list string) : string :=
  match format with
  | EmptyString => EmptyString
  | String c rest =>
      if Ascii.eqb c "%"%char then
        match rest with
        | String v rest' =>
            if Ascii.eqb v "s"%char then
              match args with
              | a :: args' => a +:+ Sprintf rest' args'
              | [] => "%!s(MISSING)" +:+ Sprintf rest' []
              end
            else String c (Sprintf rest args)
        | EmptyString => "%!(NOVERB)"
        end
      else String c (Sprintf rest args)
  end.

End gofmt.

Module gostrings.

(** One byte of [strings.ToLower] on ASCII input. *)
Definition lower_byte (c : ascii) : ascii :=
  let n := N_of_ascii c in
  if ((65 <=? n) && (n <=? 90))%N then ascii_of_N (n + 32) else c.

(** [strings.ToLower] on ASCII strings; bytes outside [A-Z] are kept. The
    factory below is parametric in the lowering function, this is the
    instance used on concrete inputs. *)
Fixpoint ascii_ToLower (s : string) : string :=
  match s with
  | EmptyString => EmptyString
  | String c rest => String (lower_byte c) (ascii_ToLower rest)
  end.

End gostrings.

Module reflect.

(** [reflect.Kind]. *)
Inductive Kind :=
| Invalid | Bool | Int | Int8 | Int16 | Int32 | Int64
| Uint | Uint8 | Uint16 | Uint32 | Uint64 | Uintptr
| Float32 | Float64 | Complex64 | Complex128
| Array | Chan | Func | Interface | Map | Pointer | Slice
| String_ | Struct | UnsafePointer.

#[global] Instance Kind_eq_dec : EqDecision Kind.
Proof. solve_decision. Defined.

Definition Kind_String (k : Kind) : string :=
  match k with
  | Invalid => "invalid" | Bool => "bool" | Int => "int" | Int8 => "int8"
  | Int16 => "int16" | Int32 => "int32" | Int64 => "int64"
  | Uint => "uint" | Uint8 => "uint8" | Uint16 => "uint16"
  | Uint32 => "uint32" | Uint64 => "uint64" | Uintptr => "uintptr"
  | Float32 => "float32" | Float64 => "float64"
  | Complex64 => "complex64" | Complex128 => "complex128"
  | Array => "array" | Chan => "chan" | Func => "func"
  | Interface => "interface" | Map => "map" | Pointer => "ptr"
  | Slice => "slice" | String_ => "string" | Struct => "struct"
  | UnsafePointer => "unsafe.Pointer"
  end.

(** What the factory reads of [reflect.TypeOf(bc).Elem()]: the kind and the
    declared name of the pointee's type. *)
Record Type_ := { Kind_ : Kind; Name : string }.

End reflect.

Module context.

(** [context.Context] as far as the sources build one; [WithTimeout]
    carries the [time.Duration] in nanoseconds. *)
Inductive Context :=
| Background
| TODO
| WithTimeout (parent : Context) (d : Z).

End context.

Module gotime.

(** [int64] wrap-around. *)
Definition wrap64 (z : Z) : Z := (z + 2 ^ 63) mod 2 ^ 64 - 2 ^ 63.

Definition Second : Z := 1000000000.

(** [time.Duration(n) * time.Second]. *)
Definition seconds (n : Z) : Z := wrap64 (wrap64 n * Second).

End gotime.

(** Go's [error] values as the sources meet them: a message ([fmt.Errorf] and
    the vendor SDKs) or an [*os.PathError] with its errno. *)
Inductive error :=
| errorString (msg : string)
| PathError (op path : string) (errno : Z).

#[global] Instance error_eq_dec : EqDecision error.
Proof. solve_decision. Defined.

Module os.

Definition ENOENT : Z := 2.
Definition EACCES : Z := 13.

(** [os.IsNotExist]: false on nil, true on a path error whose errno is
    [ENOENT]. *)
Definition IsNotExist (err : option error) : bool :=
  match err with
  | Some (PathError _ _ e) => Z.eqb e ENOENT
  | _ => false
  end.

(** An open [*os.File]. *)
Record File := { file_name : string; fd : Z }.

End os.

(** ** shared/errors *)

Module errors.

(** Modelled from the spec: [shared/errors] is not among the sources. The
    kind codes are a closed enumeration; the four below are the ones the
    sources and the specification name. *)
Inductive ErrCode :=
| ErrBadRequest
| ErrUnauthorized
| ErrClientError
| ErrFileOperationFailed.

#[global] Instance ErrCode_eq_dec : EqDecision ErrCode.
Proof. solve_decision. Defined.

Record BifrostError := { Err : error; ErrorCode : ErrCode }.

End errors.

(** ** shared/config *)

Module config.

(** Modelled from the spec: the values of the access-control option
    ([public-read], [private]) and the preview URL pattern of the object
    store, [https://{bucket}.s3.{region}.amazonaws.com/{key}], written as
    the [Sprintf] format the source passes three operands to. *)
Definition ACLPublicRead : string := "public-read".
Definition ACLPrivate : string := "private".
Definition URLSimpleStorageService : string :=
  "https://%s.s3.%s.amazonaws.com/%s".

End config.

(** ** shared/types and the vendor SDK records *)

Module aws.

(** [credentials.NewStaticCredentialsProvider(key, secret, session)]. *)
Record StaticCredentialsProvider :=
  { Key : string; Secret : string; Session : string }.

(** The functional options handed to [config.LoadDefaultConfig]. *)
Inductive LoadOption :=
| WithCredentialsProvider (creds : StaticCredentialsProvider)
| WithRegion (region : string).

(** [aws.Config], as resolved by the SDK. *)
Record Config :=
  { cfg_Region : string; cfg_Credentials : option StaticCredentialsProvider }.

(** [*s3.Client] built by [s3.NewFromConfig]. *)
Record Client := NewFromConfig { client_cfg : Config }.

(** [types.ObjectCannedACL] is a string type; the empty string is the
    unset grant. *)
Definition ObjectCannedACLPrivate : string := "private".
Definition ObjectCannedACLPublicRead : string := "public-read".

Record PutObjectInput := {
  Bucket : option string;
  Key_ : option string;
  Body : option os.File;
  ACL : string;
  ContentType : option string;
  Metadata : option (gmap string string)
}.

Record HeadObjectInput := { hBucket : option string; hKey : option string }.

Record HeadObjectOutput := { ContentLength : Z; ETag : option string }.

(** [aws.String]. *)
Definition String_ (s : string) : option string := Some s.

End aws.

Module storage.

(** [*storage.Client] of the Google SDK, identified by what authenticated
    it. *)
Record Client := { client_credentials : option string }.

End storage.

Module types.

(** [types.BridgeConfig] (the factory's [BridgeConfig] is the same record),
    with the fields the sources read or write. *)
Record BridgeConfig := {
  Provider : string;
  DefaultBucket : string;
  Region : string;
  AccessKey : string;
  SecretKey : string;
  CredentialsFile : string;
  Project : string;
  PinataJWT : string;
  DefaultTimeout : Z;
  EnableDebug : bool;
  PublicRead : bool;
  UseAsync : bool
}.

(** [types.UploadedFile]; [ProviderObject] holds the backend's native
    object metadata. *)
Record UploadedFile := {
  Name : string;
  Bucket : string;
  Path : string;
  Preview : string;
  Size : Z;
  ProviderObject : option aws.HeadObjectOutput
}.

(** A value of type [interface{}] as it can sit in an options map. *)
Inductive Value :=
| VNil
| VString (s : string)
| VBool (b : bool)
| VInt (n : Z)
| VStringMap (m : gmap string string)
| VOther (dynamic_type : string).

End types.

(** ** The outside world *)

Module world.

(** Every call that leaves the process, with its arguments. *)
Inductive Event :=
| EvStat (path : string)
| EvOpen (path : string)
| EvClose (f : os.File)
| EvPutObject (c : option aws.Client) (ctx : context.Context)
    (params : aws.PutObjectInput)
| EvHeadObject (c : option aws.Client) (ctx : context.Context)
    (params : aws.HeadObjectInput)
| EvLoadDefaultConfig (ctx : context.Context) (opts : list aws.LoadOption)
| EvStorageNewClient (ctx : context.Context) (credentialsFile : option string)
| EvLog (msg : string).

Definition is_filesystem (e : Event) : bool :=
  match e with
  | EvStat _ | EvOpen _ | EvClose _ => true
  | _ => false
  end.

(** Calls into a vendor SDK; these are the ones that may reach the
    network. *)
Definition is_network (e : Event) : bool :=
  match e with
  | EvPutObject _ _ _ | EvHeadObject _ _ _
  | EvLoadDefaultConfig _ _ | EvStorageNewClient _ _ => true
  | _ => false
  end.

(** How the world answers. A failed call is [inr err]; for calls whose
    result the sources discard, [Some err]. *)
Record Env := {
  os_Stat : string -> option error;
  os_Open : string -> os.File + error;
  s3_PutObject :
    option aws.Client -> context.Context -> aws.PutObjectInput -> option error;
  s3_HeadObject :
    option aws.Client -> context.Context -> aws.HeadObjectInput ->
    aws.HeadObjectOutput + error;
  config_LoadDefaultConfig :
    context.Context -> list aws.LoadOption -> aws.Config + error;
  storage_NewClient :
    context.Context -> option string -> storage.Client + error
}.

(** A computation returns a value and the calls it made, oldest first. *)
Definition IO (A : Type) : Type := A * list Event.

Definition ret {A} (a : A) : IO A := (a, []).

Definition bind {A B} (m : IO A) (k : A -> IO B) : IO B :=
  let (b, t) := k (fst m) in (b, snd m ++ t).

Definition call {A} (e : Event) (answer : A) : IO A := (answer, [e]).

Definition result {A} (m : IO A) : A := fst m.
Definition trace {A} (m : IO A) : list Event := snd m.

End world.

Notation "x <- m ;; k" := (world.bind m (fun x => k))
  (at level 100, m at next level, right associativity, only parsing).
Notation "m ;;; k" := (world.bind m (fun _ => k))
  (at level 100, right associativity, only parsing).

(** ** Package s3: the S3 adapter *)

Module bs3.

Import world.

(** [SimpleStorageService], with the fields its methods and its constructor
    use. [Client] is the native client, nil after [Disconnect]. *)
Record SimpleStorageService := {
  Provider : string;
  DefaultBucket : string;
  Region : string;
  AccessKey : string;
  SecretKey : string;
  DefaultTimeout : Z;
  EnableDebug : bool;
  PublicRead : bool;
  UseAsync : bool;
  Client : option aws.Client
}.

Definition Errorf (format : string) (args : list string) : error :=
  errorString (gofmt.Sprintf format args).

(** [IsConnected] *)
Definition IsConnected (s : SimpleStorageService) : bool :=
  match Client s with Some _ => true | None => false end.

(** [Disconnect]: the receiver after the call, and the returned error. *)
Definition Disconnect (s : SimpleStorageService)
  : SimpleStorageService * option error :=
  ({| Provider := Provider s; DefaultBucket := DefaultBucket s;
      Region := Region s; AccessKey := AccessKey s;
      SecretKey := SecretKey s; DefaultTimeout := DefaultTimeout s;
      EnableDebug := EnableDebug s; PublicRead := PublicRead s;
      UseAsync := UseAsync s; Client := None |}, None).

(** [Config]; the fields the source leaves out take Go's zero value. *)
Definition Config (s : SimpleStorageService) : types.BridgeConfig :=
  {| types.DefaultBucket := DefaultBucket s;
     types.Region := Region s;
     types.AccessKey := AccessKey s;
     types.SecretKey := SecretKey s;
     types.DefaultTimeout := DefaultTimeout s;
     types.EnableDebug := EnableDebug s;
     types.Provider := Provider s;
     types.UseAsync := UseAsync s;
     types.CredentialsFile := "";
     types.Project := "";
     types.PinataJWT := "";
     types.PublicRead := false |}.

(** [UploadFolder] *)
Definition UploadFolder (s : SimpleStorageService) (path : string)
    (options : gmap string types.Value)
  : option (list types.UploadedFile) * option errors.BifrostError :=
  (None, None).

(** The operation context of [UploadFile]: bounded by the handle's
    timeout when that is positive. *)
Definition upload_context (s : SimpleStorageService) : context.Context :=
  if 0 <? DefaultTimeout s then
    context.WithTimeout context.Background
      (gotime.seconds (DefaultTimeout s))
  else context.Background.

Definition set_ACL (p : aws.PutObjectInput) (acl : string) :=
  {| aws.Bucket := aws.Bucket p; aws.Key_ := aws.Key_ p;
     aws.Body := aws.Body p; aws.ACL := acl;
     aws.ContentType := aws.ContentType p; aws.Metadata := aws.Metadata p |}.

Definition set_ContentType (p : aws.PutObjectInput) (ct : option string) :=
  {| aws.Bucket := aws.Bucket p; aws.Key_ := aws.Key_ p;
     aws.Body := aws.Body p; aws.ACL := aws.ACL p;
     aws.ContentType := ct; aws.Metadata := aws.Metadata p |}.

Definition set_Metadata (p : aws.PutObjectInput)
    (md : option (gmap string string)) :=
  {| aws.Bucket := aws.Bucket p; aws.Key_ := aws.Key_ p;
     aws.Body := aws.Body p; aws.ACL := aws.ACL p;
     aws.ContentType := aws.ContentType p; aws.Metadata := md |}.

Section UploadFile.

(** The option keys [config.OptACL], [config.OptContentType] and
    [config.OptMetadata]; [shared/config] is not among the sources. *)
Variables OptACL OptContentType OptMetadata : string.

(** One turn of the loop over the options: the [switch k]. *)
Definition apply_option (params : aws.PutObjectInput)
    (kv : string * types.Value) : aws.PutObjectInput :=
  let (k, v) := kv in
  if String.eqb k OptACL then
    match v with
    | types.VString v =>
        if String.eqb v config.ACLPublicRead then
          set_ACL params aws.ObjectCannedACLPublicRead
        else if String.eqb v config.ACLPrivate then
          set_ACL params aws.ObjectCannedACLPrivate
        else params
    | _ => params
    end
  else if String.eqb k OptContentType then
    match v with
    | types.VString v => set_ContentType params (aws.String_ v)
    | _ => params
    end
  else if String.eqb k OptMetadata then
    match v with
    | types.VStringMap v => set_Metadata params (Some v)
    | _ => params
    end
  else params.

(** [for k, v := range options], over the entries in the order the
    runtime yields them. *)
Definition range_options (params : aws.PutObjectInput)
    (entries : list (string * types.Value)) : aws.PutObjectInput :=
  fold_left apply_option entries params.

(** The request handed to [PutObject]: bucket, key and body, the
    handle's default grant, then the options. *)
Definition put_params (s : SimpleStorageService) (filename : string)
    (file : os.File) (options : gmap string types.Value)
  : aws.PutObjectInput :=
  let params :=
    {| aws.Bucket := aws.String_ (DefaultBucket s);
       aws.Key_ := aws.String_ filename;
       aws.Body := Some file;
       aws.ACL := "";
       aws.ContentType := None;
       aws.Metadata := None |} in
  let params :=
    if PublicRead s then set_ACL params aws.ObjectCannedACLPublicRead
    else params in
  range_options params (map_to_list options).

(** [UploadFile] from the point where the file is open up to its
    [return]s; the deferred [file.Close()] is run by the caller. *)
Definition put_and_head (e : Env) (s : SimpleStorageService)
    (ctx : context.Context) (path filename : string) (file : os.File)
    (options : gmap string types.Value)
  : IO (option types.UploadedFile * option errors.BifrostError) :=
  let params := put_params s filename file options in
  err <- call (EvPutObject (Client s) ctx params)
              (s3_PutObject e (Client s) ctx params) ;;
  match err with
  | Some err =>
      ret (None, Some {| errors.Err := err;
                         errors.ErrorCode := errors.ErrFileOperationFailed |})
  | None =>
      let input :=
        {| aws.hBucket := aws.String_ (DefaultBucket s);
           aws.hKey := aws.String_ filename |} in
      r <- call (EvHeadObject (Client s) ctx input)
                (s3_HeadObject e (Client s) ctx input) ;;
      match r with
      | inr err =>
          ret (None, Some {| errors.Err := err;
                             errors.ErrorCode := errors.ErrFileOperationFailed |})
      | inl obj =>
          ret (Some {| types.Name := filename;
                       types.Bucket := DefaultBucket s;
                       types.Path := path;
                       types.Preview :=
                         gofmt.Sprintf config.URLSimpleStorageService
                           [DefaultBucket s; Region s; filename];
                       types.Size := aws.ContentLength obj;
                       types.ProviderObject := Some obj |}, None)
      end
  end.

(** [UploadFile] *)
Definition UploadFile (e : Env) (s : SimpleStorageService)
    (path filename : string) (options : gmap string types.Value)
  : IO (option types.UploadedFile * option errors.BifrostError) :=
  if negb (IsConnected s) then
    ret (None, Some {| errors.Err := Errorf "no active S3 client" [];
                       errors.ErrorCode := errors.ErrClientError |})
  else
    let ctx := upload_context s in
    err <- call (EvStat path) (os_Stat e path) ;;
    if os.IsNotExist err then
      ret (None, Some {| errors.Err :=
                           Errorf "file does not exist: %s" [path];
                         errors.ErrorCode := errors.ErrBadRequest |})
    else
      r <- call (EvOpen path) (os_Open e path) ;;
      match r with
      | inr err =>
          ret (None, Some {| errors.Err := err;
                             errors.ErrorCode := errors.ErrFileOperationFailed |})
      | inl file =>
          out <- put_and_head e s ctx path filename file options ;;
          (call (EvClose file) tt ;;;
           ret out)
      end.

End UploadFile.

End bs3.

(** ** Packages gcs and pinata: the handles the factory builds *)

Module gcs.

Record GoogleCloudStorage := {
  Provider : string;
  DefaultBucket : string;
  CredentialsFile : string;
  Project : string;
  DefaultTimeout : Z;
  Client : option storage.Client;
  EnableDebug : bool;
  PublicRead : bool;
  UseAsync : bool
}.

End gcs.

Module pinata.

Record PinataIPFSStorage := {
  PinataJWT : string;
  Provider : string;
  DefaultBucket : string;
  CredentialsFile : string;
  Project : string;
  DefaultTimeout : Z;
  EnableDebug : bool;
  PublicRead : bool;
  UseAsync : bool
}.

End pinata.

(** ** Package bifrost: the factory *)

Module bifrost.

Import world.

(** A non-nil value of the interface [RainbowBridge]: one of the three
    adapters. *)
Inductive RainbowBridge :=
| S3Bridge (s : bs3.SimpleStorageService)
| GCSBridge (g : gcs.GoogleCloudStorage)
| PinataBridge (p : pinata.PinataIPFSStorage).

(** A non-nil [bc]: the record it points to, and the descriptor
    [reflect.TypeOf(bc).Elem()] of the pointee's type. For a caller that
    passes a [*BridgeConfig] the descriptor is [BridgeConfig_type]. *)
Record ConfigRef := { elem : reflect.Type_; deref : types.BridgeConfig }.

Definition BridgeConfig_type : reflect.Type_ :=
  {| reflect.Kind_ := reflect.Struct; reflect.Name := "BridgeConfig" |}.

Definition ref (bc : types.BridgeConfig) : option ConfigRef :=
  Some {| elem := BridgeConfig_type; deref := bc |}.

Definition Errorf := bs3.Errorf.

Definition fail {A} (err : error) (code : errors.ErrCode)
  : IO (option A * option errors.BifrostError) :=
  ret (None, Some {| errors.Err := err; errors.ErrorCode := code |}).

Section Factory.

(** The registry [providers] (identifier to display name), the constant
    [bridgeConfigType] and [strings.ToLower]; the first two are declared
    outside the sources. *)
Variable providers : gmap string string.
Variable bridgeConfigType : string.
Variable ToLower : string -> string.

(** [providers[strings.ToLower(g.Provider)]]; a missing key reads as the
    zero value. *)
Definition provider_name (g : types.BridgeConfig) : string :=
  default "" (providers !! ToLower (types.Provider g)).

(** [newPinataIPFS] *)
Definition newPinataIPFS (e : Env) (g : types.BridgeConfig)
  : IO (option RainbowBridge * option errors.BifrostError) :=
  if String.eqb (types.PinataJWT g) "" then
    fail (Errorf "jwt is required for authentication" [])
         errors.ErrUnauthorized
  else
    ret (Some (PinataBridge
           {| pinata.PinataJWT := types.PinataJWT g;
              pinata.Provider := provider_name g;
              pinata.DefaultBucket := types.DefaultBucket g;
              pinata.CredentialsFile := types.CredentialsFile g;
              pinata.Project := types.Project g;
              pinata.DefaultTimeout := types.DefaultTimeout g;
              pinata.EnableDebug := types.EnableDebug g;
              pinata.PublicRead := types.PublicRead g;
              pinata.UseAsync := types.UseAsync g |}), None).

(** [newGoogleCloudStorage]: authenticate with the credentials file when
    one is given, without it otherwise; the two branches fail alike. *)
Definition newGoogleCloudStorage (e : Env) (g : types.BridgeConfig)
  : IO (option RainbowBridge * option errors.BifrostError) :=
  r <- (if negb (String.eqb (types.CredentialsFile g) "") then
          call (EvStorageNewClient context.Background
                  (Some (types.CredentialsFile g)))
               (storage_NewClient e context.Background
                  (Some (types.CredentialsFile g)))
        else
          call (EvStorageNewClient context.Background None)
               (storage_NewClient e context.Background None)) ;;
  match r with
  | inr err => fail err errors.ErrUnauthorized
  | inl client =>
      ret (Some (GCSBridge
             {| gcs.Provider := provider_name g;
                gcs.DefaultBucket := types.DefaultBucket g;
                gcs.CredentialsFile := types.CredentialsFile g;
                gcs.Project := types.Project g;
                gcs.DefaultTimeout := types.DefaultTimeout g;
                gcs.Client := Some client;
                gcs.EnableDebug := types.EnableDebug g;
                gcs.PublicRead := types.PublicRead g;
                gcs.UseAsync := types.UseAsync g |}), None)
  end.

(** The arguments of [config.LoadDefaultConfig] in
    [newSimpleStorageService]: static credentials and the region when
    both keys are set, the shared configuration otherwise. *)
Definition s3_load_args (g : types.BridgeConfig)
  : context.Context * list aws.LoadOption :=
  if negb (String.eqb (types.AccessKey g) "")
     && negb (String.eqb (types.SecretKey g) "") then
    let creds :=
      {| aws.Key := types.AccessKey g; aws.Secret := types.SecretKey g;
         aws.Session := "" |} in
    (context.Background,
     [aws.WithCredentialsProvider creds; aws.WithRegion (types.Region g)])
  else (context.TODO, []).

(** [newSimpleStorageService]; the fields the struct literal leaves out
    ([DefaultTimeout], [EnableDebug], [UseAsync]) take Go's zero value. *)
Definition newSimpleStorageService (e : Env) (g : types.BridgeConfig)
  : IO (option RainbowBridge * option errors.BifrostError) :=
  let (ctx, opts) := s3_load_args g in
  r <- call (EvLoadDefaultConfig ctx opts)
            (config_LoadDefaultConfig e ctx opts) ;;
  match r with
  | inr err => fail err errors.ErrUnauthorized
  | inl cfg =>
      let client := aws.NewFromConfig cfg in
      ret (Some (S3Bridge
             {| bs3.Provider := provider_name g;
                bs3.DefaultBucket := types.DefaultBucket g;
                bs3.Region := types.Region g;
                bs3.PublicRead := types.PublicRead g;
                bs3.SecretKey := types.SecretKey g;
                bs3.AccessKey := types.AccessKey g;
                bs3.Client := Some client;
                bs3.DefaultTimeout := 0;
                bs3.EnableDebug := false;
                bs3.UseAsync := false |}), None)
  end.

(** The warning of the bucket check. *)
Definition warn_no_bucket (bc : types.BridgeConfig) : IO unit :=
  if String.eqb (types.DefaultBucket bc) "" then
    if types.EnableDebug bc then
      call (EvLog (gofmt.Sprintf
        "No bucket specified for provider %s. This might cause errors or require you to specify a bucket for each operation."
        [provider_name bc])) tt
    else ret tt
  else ret tt.

(** The final [switch bc.Provider]. *)
Definition dispatch (e : Env) (bc : types.BridgeConfig)
  : IO (option RainbowBridge * option errors.BifrostError) :=
  if String.eqb (types.Provider bc) "s3" then
    newSimpleStorageService e bc
  else if String.eqb (types.Provider bc) "gcs" then
    newGoogleCloudStorage e bc
  else if String.eqb (types.Provider bc) "pinata" then
    newPinataIPFS e bc
  else
    fail (Errorf "invalid provider: %s" [types.Provider bc])
         errors.ErrBadRequest.

(** [NewRainbowBridge] *)
Definition NewRainbowBridge (e : Env) (bc : option ConfigRef)
  : IO (option RainbowBridge * option errors.BifrostError) :=
  match bc with
  | None => fail (Errorf "config is nil" []) errors.ErrBadRequest
  | Some r =>
      let t := elem r in
      let bc := deref r in
      if negb (bool_decide (reflect.Kind_ t = reflect.Struct)) then
        fail (Errorf "invalid config type: %s"
                [reflect.Kind_String (reflect.Kind_ t)])
             errors.ErrBadRequest
      else if negb (String.eqb (reflect.Name t) bridgeConfigType) then
        fail (Errorf "invalid config type: %s" [reflect.Name t])
             errors.ErrBadRequest
      else if String.eqb (types.Provider bc) "" then
        fail (Errorf "no provider specified" []) errors.ErrBadRequest
      else
        match providers !! ToLower (types.Provider bc) with
        | None =>
            fail (Errorf "invalid provider: %s" [types.Provider bc])
                 errors.ErrBadRequest
        | Some _ =>
            (warn_no_bucket bc ;;;
             dispatch e bc)
        end
  end.

End Factory.

(** Modelled from the spec: the declaration of [providers] is not among
    the sources; the supported identifiers are [s3], [gcs] and [pinata].
    The display names are placeholders. This instance serves to run the
    factory on concrete inputs. *)
Definition spec_providers : gmap string string :=
  <["s3" := "Simple Storage Service"]>
    (<["gcs" := "Google Cloud Storage"]>
       (<["pinata" := "Pinata"]> ∅)).

End bifrost.

(** ** Concrete inputs *)

Module samples.

Import world.

(** A world with one readable file, [/tmp/photo.png], one file that exists
    but cannot be opened, [/etc/shadow], one path below a directory that
    may not be searched, [/root/secret/a.txt], and a backend that accepts
    every write and reports 1024 bytes. *)
Definition env : Env :=
  {| os_Stat := fun p =>
       if String.eqb p "/tmp/photo.png" then None
       else if String.eqb p "/etc/shadow" then None
       else if String.eqb p "/root/secret/a.txt" then
         Some (PathError "stat" p os.EACCES)
       else Some (PathError "stat" p os.ENOENT);
     os_Open := fun p =>
       if String.eqb p "/tmp/photo.png" then
         inl {| os.file_name := p; os.fd := 3 |}
       else if String.eqb p "/etc/shadow" then
         inr (PathError "open" p os.EACCES)
       else if String.eqb p "/root/secret/a.txt" then
         inr (PathError "open" p os.EACCES)
       else inr (PathError "open" p os.ENOENT);
     s3_PutObject := fun _ _ _ => None;
     s3_HeadObject := fun _ _ _ =>
       inl {| aws.ContentLength := 1024; aws.ETag := None |};
     config_LoadDefaultConfig := fun _ _ =>
       inl {| aws.cfg_Region := "us-east-1"; aws.cfg_Credentials := None |};
     storage_NewClient := fun _ c => inl {| storage.client_credentials := c |}
  |}.

(** The same world with a backend that refuses the write. *)
Definition env_put_fails : Env :=
  {| os_Stat := os_Stat env; os_Open := os_Open env;
     s3_PutObject := fun _ _ _ => Some (errorString "AccessDenied");
     s3_HeadObject := s3_HeadObject env;
     config_LoadDefaultConfig := config_LoadDefaultConfig env;
     storage_NewClient := storage_NewClient env |}.

(** A configuration for the given provider identifier and pinning token. *)
Definition cfg (provider jwt : string) : types.BridgeConfig :=
  {| types.Provider := provider;
     types.DefaultBucket := "assets";
     types.Region := "us-east-1";
     types.AccessKey := "A";
     types.SecretKey := "B";
     types.CredentialsFile := "";
     types.Project := "";
     types.PinataJWT := jwt;
     types.DefaultTimeout := 30;
     types.EnableDebug := true;
     types.PublicRead := true;
     types.UseAsync := true |}.

Definition client : aws.Client :=
  aws.NewFromConfig
    {| aws.cfg_Region := "us-east-1"; aws.cfg_Credentials := None |}.

(** A connected handle with the given public-read default. *)
Definition handle (publicRead : bool) : bs3.SimpleStorageService :=
  {| bs3.Provider := "Simple Storage Service";
     bs3.DefaultBucket := "assets";
     bs3.Region := "us-east-1";
     bs3.AccessKey := "A";
     bs3.SecretKey := "B";
     bs3.DefaultTimeout := 0;
     bs3.EnableDebug := false;
     bs3.PublicRead := publicRead;
     bs3.UseAsync := false;
     bs3.Client := Some client |}.

Definition photo : os.File :=
  {| os.file_name := "/tmp/photo.png"; os.fd := 3 |}.

(** The factory and the upload with the constants instantiated. *)
Definition NewRainbowBridge :=
  bifrost.NewRainbowBridge bifrost.spec_providers "BridgeConfig"
    gostrings.ascii_ToLower.

Definition UploadFile := bs3.UploadFile "acl" "content-type" "metadata".

Definition put_params := bs3.put_params "acl" "content-type" "metadata".

(** The same world with vendor SDKs that refuse to authenticate. *)
Definition env_auth_fails : Env :=
  {| os_Stat := os_Stat env; os_Open := os_Open env;
     s3_PutObject := s3_PutObject env;
     s3_HeadObject := s3_HeadObject env;
     config_LoadDefaultConfig := fun _ _ =>
       inr (errorString "failed to load shared config");
     storage_NewClient := fun _ _ =>
       inr (errorString "could not find default credentials") |}.

(** A configuration for Google Cloud Storage with a credentials file. *)
Definition gcs_cfg (credentialsFile : string) : types.BridgeConfig :=
  {| types.Provider := "gcs";
     types.DefaultBucket := "";
     types.Region := "";
     types.AccessKey := "";
     types.SecretKey := "";
     types.CredentialsFile := credentialsFile;
     types.Project := "bifrost-demo";
     types.PinataJWT := "";
     types.DefaultTimeout := 10;
     types.EnableDebug := true;
     types.PublicRead := false;
     types.UseAsync := false |}.

(** An S3 configuration with an access key and no secret key. *)
Definition s3_access_key_only : types.BridgeConfig :=
  {| types.Provider := "s3"; types.DefaultBucket := "assets";
     types.Region := "eu-west-1"; types.AccessKey := "A";
     types.SecretKey := ""; types.CredentialsFile := "";
     types.Project := ""; types.PinataJWT := "";
     types.DefaultTimeout := 0; types.EnableDebug := false;
     types.PublicRead := false; types.UseAsync := false |}.

(** A validated reference to a configuration. *)
Definition valid_ref (g : types.BridgeConfig) : bifrost.ConfigRef :=
  {| bifrost.elem := bifrost.BridgeConfig_type; bifrost.deref := g |}.

End samples.

(** ** Reference definitions for the statements below *)

(** [&errors.BifrostError{Err: err, ErrorCode: code}] *)
Definition bifrost_error (err : error) (code : errors.ErrCode)
  : errors.BifrostError :=
  {| errors.Err := err; errors.ErrorCode := code |}.

(** The grant the specification prescribes: the access-control option when
    it is the string [public-read] or [private], the default otherwise. *)
Definition resolve_ACL (default : string) (opt : option types.Value)
  : string :=
  match opt with
  | Some (types.VString v) =>
      if String.eqb v "public-read" then "public-read"
      else if String.eqb v "private" then "private"
      else default
  | _ => default
  end.

(** A configuration that passes the four checks of the factory. *)
Definition passes_validation (providers : gmap string string)
    (bridgeConfigType : string) (ToLower : string -> string)
    (r : bifrost.ConfigRef) : Prop :=
  reflect.Kind_ (bifrost.elem r) = reflect.Struct /\
  reflect.Name (bifrost.elem r) = bridgeConfigType /\
  types.Provider (bifrost.deref r) <> "" /\
  is_Some (providers !! ToLower (types.Provider (bifrost.deref r))).

(** An options entry the loop of [UploadFile] passes over. *)
Definition ignored (OptACL OptContentType OptMetadata : string)
    (k : string) (v : types.Value) : Prop :=
  forall p,
    bs3.apply_option OptACL OptContentType OptMetadata p (k, v) = p.

(** The grant of the handle alone. *)
Definition default_ACL (s : bs3.SimpleStorageService) : string :=
  if bs3.PublicRead s then "public-read" else "".

(** What [newGoogleCloudStorage] hands to [storage.NewClient]: the
    credentials file when one is configured. *)
Definition gcs_credentials (g : types.BridgeConfig) : option string :=
  if String.eqb (types.CredentialsFile g) "" then None
  else Some (types.CredentialsFile g).

(** The warning the factory logs for a configuration without bucket. *)
Definition no_bucket_warning (provider : string) : string :=
  "No bucket specified for provider " +:+ provider +:+
  ". This might cause errors or require you to specify a bucket for each operation.".

(** The number of recorded calls into a vendor SDK in a trace; in a trace
    of the factory these are [config.LoadDefaultConfig] and
    [storage.NewClient]. *)
Definition network_calls (tr : list world.Event) : nat :=
  length (List.filter world.is_network tr).

(** The content type and the metadata a request carries for a given entry
    of the options map. *)
Definition resolve_ContentType (opt : option types.Value) : option string :=
  match opt with
  | Some (types.VString v) => Some v
  | _ => None
  end.

Definition resolve_Metadata (opt : option types.Value)
  : option (gmap string string) :=
  match opt with
  | Some (types.VStringMap m) => Some m
  | _ => None
  end.

(** The adapter a handle is bound to, as the identifier the final switch
    of the factory compares with. *)
Definition adapter_id (h : bifrost.RainbowBridge) : string :=
  match h with
  | bifrost.S3Bridge _ => "s3"
  | bifrost.GCSBridge _ => "gcs"
  | bifrost.PinataBridge _ => "pinata"
  end.

(** * Properties *)

Import world.

(** ** Formatting *)

Lemma append_empty_r (s : string) : s +:+ "" = s.
Proof.
  induction s as [|c s IH]; [reflexivity|].
  change (String c s +:+ "") with (String c (s +:+ "")). now rewrite IH.
Qed.

Lemma Errorf_file_does_not_exist (path : string) :
  bs3.Errorf "file does not exist: %s" [path] =
  errorString ("file does not exist: " +:+ path).
Proof.
  unfold bs3.Errorf. cbn. rewrite append_empty_r. reflexivity.
Qed.

Lemma Errorf_invalid_provider (provider : string) :
  bs3.Errorf "invalid provider: %s" [provider] =
  errorString ("invalid provider: " +:+ provider).
Proof.
  unfold bs3.Errorf. cbn. rewrite append_empty_r. reflexivity.
Qed.

(** The preview URL is the pattern with bucket, region and key filled in. *)
Lemma Sprintf_URLSimpleStorageService (bucket region key : string) :
  gofmt.Sprintf config.URLSimpleStorageService [bucket; region; key] =
  "https://" +:+ bucket +:+ ".s3." +:+ region +:+ ".amazonaws.com/" +:+ key.
Proof.
  unfold config.URLSimpleStorageService. cbn. rewrite append_empty_r.
  reflexivity.
Qed.

(** ** Disconnect and IsConnected *)

Lemma IsConnected_iff (s : bs3.SimpleStorageService) :
  bs3.IsConnected s = true <-> bs3.Client s <> None.
Proof.
  unfold bs3.IsConnected. destruct (bs3.Client s); split; congruence.
Qed.

Lemma IsConnected_false_iff (s : bs3.SimpleStorageService) :
  bs3.IsConnected s = false <-> bs3.Client s = None.
Proof.
  unfold bs3.IsConnected. destruct (bs3.Client s); split; congruence.
Qed.

Lemma Disconnect_not_connected (s : bs3.SimpleStorageService) :
  bs3.IsConnected (fst (bs3.Disconnect s)) = false.
Proof. reflexivity. Qed.

(** C9. [Disconnect] always succeeds and is idempotent: called once or twice
    in a row it returns no error, the handle is not connected after either
    call, the second call changes nothing, and [IsConnected] holds exactly
    when the native client reference is non-nil. *)
Theorem C9_Disconnect_idempotent (s : bs3.SimpleStorageService) :
  let once := bs3.Disconnect s in
  let twice := bs3.Disconnect (fst once) in
  snd once = None /\ snd twice = None /\
  bs3.IsConnected (fst once) = false /\
  bs3.IsConnected (fst twice) = false /\
  fst twice = fst once /\
  (forall h, bs3.IsConnected h = true <-> bs3.Client h <> None).
Proof.
  cbn. repeat split; try reflexivity; apply IsConnected_iff.
Qed.

(** ** UploadFile: the paths through the method *)

Section UploadFile_paths.

Variables OptACL OptContentType OptMetadata : string.
Variable e : Env.
Variable s : bs3.SimpleStorageService.
Variables path filename : string.
Variable options : gmap string types.Value.

Let UploadFile := bs3.UploadFile OptACL OptContentType OptMetadata.
Let put_and_head := bs3.put_and_head OptACL OptContentType OptMetadata.
Let put_params := bs3.put_params OptACL OptContentType OptMetadata.

Lemma UploadFile_disconnected :
  bs3.IsConnected s = false ->
  UploadFile e s path filename options =
    ((None, Some (bifrost_error (errorString "no active S3 client")
                    errors.ErrClientError)), []).
Proof.
  intros H. unfold UploadFile, bs3.UploadFile. rewrite H. reflexivity.
Qed.

Lemma UploadFile_not_exist :
  bs3.IsConnected s = true ->
  os.IsNotExist (os_Stat e path) = true ->
  UploadFile e s path filename options =
    ((None, Some (bifrost_error
                    (errorString ("file does not exist: " +:+ path))
                    errors.ErrBadRequest)), [EvStat path]).
Proof.
  intros Hc Hs. unfold UploadFile, bs3.UploadFile. rewrite Hc.
  unfold bind, call. cbn [fst snd negb]. rewrite Hs.
  rewrite Errorf_file_does_not_exist. reflexivity.
Qed.

Lemma UploadFile_open_fails (err : error) :
  bs3.IsConnected s = true ->
  os.IsNotExist (os_Stat e path) = false ->
  os_Open e path = inr err ->
  UploadFile e s path filename options =
    ((None, Some (bifrost_error err errors.ErrFileOperationFailed)),
     [EvStat path; EvOpen path]).
Proof.
  intros Hc Hs Ho. unfold UploadFile, bs3.UploadFile. rewrite Hc.
  unfold bind, call. cbn [fst snd negb]. rewrite Hs, Ho. reflexivity.
Qed.

Lemma UploadFile_opened (file : os.File) :
  bs3.IsConnected s = true ->
  os.IsNotExist (os_Stat e path) = false ->
  os_Open e path = inl file ->
  UploadFile e s path filename options =
    (result (put_and_head e s (bs3.upload_context s) path filename file
               options),
     EvStat path :: EvOpen path ::
       trace (put_and_head e s (bs3.upload_context s) path filename file
                options) ++ [EvClose file]).
Proof.
  intros Hc Hs Ho. unfold UploadFile, bs3.UploadFile. rewrite Hc.
  unfold bind, call. cbn [fst snd negb]. rewrite Hs, Ho.
  unfold put_and_head, result, trace.
  destruct (bs3.put_and_head _ _ _ _ _ _ _ _ _ _) as [out tr].
  reflexivity.
Qed.

(** The write and the confirmatory read. *)
Section put_and_head.

Variable file : os.File.

Let ctx := bs3.upload_context s.
Let params := put_params s filename file options.
Let input : aws.HeadObjectInput :=
  {| aws.hBucket := Some (bs3.DefaultBucket s);
     aws.hKey := Some filename |}.
Let run := put_and_head e s ctx path filename file options.

Lemma put_and_head_put_fails (err : error) :
  s3_PutObject e (bs3.Client s) ctx params = Some err ->
  run = ((None, Some (bifrost_error err errors.ErrFileOperationFailed)),
         [EvPutObject (bs3.Client s) ctx params]).
Proof.
  intros Hp. unfold run, put_and_head, bs3.put_and_head.
  unfold bind, call. cbn [fst snd].
  fold put_params. fold params. rewrite Hp. reflexivity.
Qed.

Lemma put_and_head_head_fails (err : error) :
  s3_PutObject e (bs3.Client s) ctx params = None ->
  s3_HeadObject e (bs3.Client s) ctx input = inr err ->
  run = ((None, Some (bifrost_error err errors.ErrFileOperationFailed)),
         [EvPutObject (bs3.Client s) ctx params;
          EvHeadObject (bs3.Client s) ctx input]).
Proof.
  intros Hp Hh. unfold run, put_and_head, bs3.put_and_head.
  unfold bind, call. cbn [fst snd].
  fold put_params. fold params. rewrite Hp.
  unfold aws.String_. fold input. rewrite Hh. reflexivity.
Qed.

Lemma put_and_head_ok (obj : aws.HeadObjectOutput) :
  s3_PutObject e (bs3.Client s) ctx params = None ->
  s3_HeadObject e (bs3.Client s) ctx input = inl obj ->
  run = ((Some {| types.Name := filename;
                  types.Bucket := bs3.DefaultBucket s;
                  types.Path := path;
                  types.Preview :=
                    "https://" +:+ bs3.DefaultBucket s +:+ ".s3." +:+
                    bs3.Region s +:+ ".amazonaws.com/" +:+ filename;
                  types.Size := aws.ContentLength obj;
                  types.ProviderObject := Some obj |}, None),
         [EvPutObject (bs3.Client s) ctx params;
          EvHeadObject (bs3.Client s) ctx input]).
Proof.
  intros Hp Hh. unfold run, put_and_head, bs3.put_and_head.
  unfold bind, call. cbn [fst snd].
  fold put_params. fold params. rewrite Hp.
  unfold aws.String_. fold input. rewrite Hh.
  rewrite Sprintf_URLSimpleStorageService. reflexivity.
Qed.

(** Whatever the backend answers, the outcome is a file without error,
    or no file and a [FileOperationFailed]; the write is always the
    first call. *)
Lemma put_and_head_outcome :
  ((exists f, result run = (Some f, None)) \/
   (exists err, result run =
      (None, Some (bifrost_error err errors.ErrFileOperationFailed)))) /\
  (exists rest, trace run = EvPutObject (bs3.Client s) ctx params :: rest).
Proof.
  destruct (s3_PutObject e (bs3.Client s) ctx params) as [err|] eqn:Hp.
  - rewrite (put_and_head_put_fails err Hp). cbn. eauto.
  - destruct (s3_HeadObject e (bs3.Client s) ctx input) as [obj|err] eqn:Hh.
    + rewrite (put_and_head_ok obj Hp Hh). cbn. eauto.
    + rewrite (put_and_head_head_fails err Hp Hh). cbn. eauto.
Qed.

End put_and_head.

(** [UploadFile] has two kinds of outcome only. *)
Lemma UploadFile_outcome :
  (exists f, result (UploadFile e s path filename options) = (Some f, None)) \/
  (exists be, result (UploadFile e s path filename options) = (None, Some be)).
Proof.
  destruct (bs3.IsConnected s) eqn:Hc.
  2:{ rewrite (UploadFile_disconnected Hc). cbn. eauto. }
  destruct (os.IsNotExist (os_Stat e path)) eqn:Hs.
  { rewrite (UploadFile_not_exist Hc Hs). cbn. eauto. }
  destruct (os_Open e path) as [file|err] eqn:Ho.
  2:{ rewrite (UploadFile_open_fails err Hc Hs Ho). cbn. eauto. }
  rewrite (UploadFile_opened file Hc Hs Ho). cbn [result fst].
  destruct (put_and_head_outcome file) as [[[f Hf]|[err Hf]] _];
    rewrite Hf; eauto.
Qed.

End UploadFile_paths.

(** ** Upload on a disconnected handle; UploadFolder *)

(** C3 (as amended). After [Disconnect], [UploadFile] returns no file and a
    [ClientError] without touching the filesystem or the backend, while
    [UploadFolder], a stub, returns neither a result nor an error, on the
    disconnected handle as on every other handle, connected or not. *)
Theorem C3_after_Disconnect
    (OptACL OptContentType OptMetadata : string) (e : Env)
    (s : bs3.SimpleStorageService) (path filename : string)
    (options : gmap string types.Value) :
  let s' := fst (bs3.Disconnect s) in
  bs3.IsConnected s' = false /\
  (exists be,
     bs3.UploadFile OptACL OptContentType OptMetadata e s' path filename
       options = ((None, Some be), []) /\
     errors.ErrorCode be = errors.ErrClientError) /\
  bs3.UploadFolder s' path options = (None, None) /\
  (forall (h : bs3.SimpleStorageService) (dir : string)
          (opts : gmap string types.Value),
     bs3.UploadFolder h dir opts = (None, None)).
Proof.
  cbn zeta. split; [reflexivity|]. split; [|split].
  - eexists. split.
    + apply UploadFile_disconnected. reflexivity.
    + reflexivity.
  - reflexivity.
  - intros h dir opts. reflexivity.
Qed.

(** C3, the claim as stated, fails: on a handle that was disconnected
    [UploadFolder] does not return an error of kind [ClientError]. *)
Lemma C3_UploadFolder_counterexample :
  let s' := fst (bs3.Disconnect (samples.handle true)) in
  bs3.IsConnected s' = false /\
  ~ (exists be,
       snd (bs3.UploadFolder s' "/tmp/site" ∅) = Some be /\
       errors.ErrorCode be = errors.ErrClientError).
Proof.
  cbn zeta. split; [reflexivity|].
  intros [be [H _]]. cbn in H. discriminate H.
Qed.

(** ** The preconditions of Upload *)

(** C4. [UploadFile] checks its preconditions in order. On a disconnected
    handle it returns [ClientError] and calls nothing. On a connected handle
    whose source path does not exist it returns [BadRequest] after the one
    [Stat], with no call to the backend. On a connected handle whose source
    path exists but cannot be opened it returns [FileOperationFailed] with
    the cause of the failed [Open]. *)
Theorem C4_Upload_preconditions_in_order
    (OptACL OptContentType OptMetadata : string) (e : Env)
    (s : bs3.SimpleStorageService) (path filename : string)
    (options : gmap string types.Value) :
  let up :=
    bs3.UploadFile OptACL OptContentType OptMetadata e s path filename
      options in
  (bs3.IsConnected s = false ->
   result up = (None, Some (bifrost_error (errorString "no active S3 client")
                              errors.ErrClientError)) /\
   trace up = []) /\
  (bs3.IsConnected s = true ->
   os.IsNotExist (os_Stat e path) = true ->
   result up = (None, Some (bifrost_error
                              (errorString ("file does not exist: " +:+ path))
                              errors.ErrBadRequest)) /\
   trace up = [EvStat path] /\
   Forall (fun ev => is_network ev = false) (trace up)) /\
  (bs3.IsConnected s = true ->
   os_Stat e path = None ->
   forall err, os_Open e path = inr err ->
   result up = (None, Some (bifrost_error err errors.ErrFileOperationFailed)) /\
   trace up = [EvStat path; EvOpen path] /\
   Forall (fun ev => is_network ev = false) (trace up)).
Proof.
  cbn zeta. split; [|split].
  - intros Hc. rewrite (UploadFile_disconnected _ _ _ _ _ _ _ _ Hc).
    split; reflexivity.
  - intros Hc Hs. rewrite (UploadFile_not_exist _ _ _ _ _ _ _ _ Hc Hs).
    repeat split. repeat constructor.
  - intros Hc Hs err Ho.
    assert (Hn : os.IsNotExist (os_Stat e path) = false) by now rewrite Hs.
    rewrite (UploadFile_open_fails _ _ _ _ _ _ _ _ err Hc Hn Ho).
    repeat split. repeat constructor.
Qed.

(** C4 on a disconnected handle, on a path that does not exist and on a file
    that cannot be opened. *)
Lemma C4_Upload_preconditions_witness :
  (bs3.IsConnected (fst (bs3.Disconnect (samples.handle true))) = false /\
   trace (samples.UploadFile samples.env
            (fst (bs3.Disconnect (samples.handle true)))
            "/tmp/photo.png" "photo.png" ∅) = []) /\
  (os.IsNotExist (os_Stat samples.env "/tmp/none") = true /\
   trace (samples.UploadFile samples.env (samples.handle true)
            "/tmp/none" "photo.png" ∅) = [EvStat "/tmp/none"]) /\
  (os_Open samples.env "/etc/shadow" =
     inr (PathError "open" "/etc/shadow" os.EACCES) /\
   result (samples.UploadFile samples.env (samples.handle true)
             "/etc/shadow" "shadow" ∅) =
     (None, Some (bifrost_error (PathError "open" "/etc/shadow" os.EACCES)
                    errors.ErrFileOperationFailed))).
Proof.
  split; [|split]; (split; [reflexivity|]).
  - exact (proj2 (proj1 (C4_Upload_preconditions_in_order
      "acl" "content-type" "metadata" samples.env
      (fst (bs3.Disconnect (samples.handle true)))
      "/tmp/photo.png" "photo.png" ∅) eq_refl)).
  - exact (proj1 (proj2 (proj1 (proj2 (C4_Upload_preconditions_in_order
      "acl" "content-type" "metadata" samples.env (samples.handle true)
      "/tmp/none" "photo.png" ∅)) eq_refl eq_refl))).
  - exact (proj1 (proj2 (proj2 (C4_Upload_preconditions_in_order
      "acl" "content-type" "metadata" samples.env (samples.handle true)
      "/etc/shadow" "shadow" ∅)) eq_refl eq_refl _ eq_refl)).
Defined.

(** C10. On a connected handle, when [Stat] fails for a reason other than
    not-exist, [UploadFile] does not answer [BadRequest]: it goes on to
    [Open] the path, and when that [Open] fails the outcome is
    [FileOperationFailed] with the cause of the failed [Open], nothing
    further being called. *)
Theorem C10_stat_error_other_than_not_exist
    (OptACL OptContentType OptMetadata : string) (e : Env)
    (s : bs3.SimpleStorageService) (path filename : string)
    (options : gmap string types.Value) (serr : error) :
  bs3.IsConnected s = true ->
  os_Stat e path = Some serr ->
  os.IsNotExist (Some serr) = false ->
  let up :=
    bs3.UploadFile OptACL OptContentType OptMetadata e s path filename
      options in
  (forall be, snd (result up) = Some be ->
     errors.ErrorCode be <> errors.ErrBadRequest) /\
  (exists rest, trace up = EvStat path :: EvOpen path :: rest) /\
  (forall oerr, os_Open e path = inr oerr ->
     result up =
       (None, Some (bifrost_error oerr errors.ErrFileOperationFailed)) /\
     trace up = [EvStat path; EvOpen path]).
Proof.
  intros Hc Hs Hn. cbn zeta.
  assert (Hn' : os.IsNotExist (os_Stat e path) = false) by now rewrite Hs.
  destruct (os_Open e path) as [file|oerr] eqn:Ho.
  - rewrite (UploadFile_opened _ _ _ _ _ _ _ _ file Hc Hn' Ho).
    cbn [result trace fst snd]. split; [|split].
    + intros be Hbe.
      destruct (put_and_head_outcome OptACL OptContentType OptMetadata e s
                  path filename options file) as [[[f Hf]|[err Hf]] _];
        cbv zeta in Hf; rewrite Hf in Hbe; cbn in Hbe.
      * discriminate Hbe.
      * injection Hbe as <-. discriminate.
    + eauto.
    + intros oerr Hoerr. discriminate Hoerr.
  - rewrite (UploadFile_open_fails _ _ _ _ _ _ _ _ oerr Hc Hn' Ho).
    cbn [result trace fst snd]. split; [|split].
    + intros be Hbe. injection Hbe as <-. discriminate.
    + eauto.
    + intros oerr' Hoerr. injection Hoerr as <-. split; reflexivity.
Qed.

(** C10 on a path below a directory that may not be searched. *)
Lemma C10_stat_error_witness :
  result (samples.UploadFile samples.env (samples.handle true)
            "/root/secret/a.txt" "a.txt" ∅) =
    (None, Some (bifrost_error (PathError "open" "/root/secret/a.txt" os.EACCES)
                   errors.ErrFileOperationFailed)) /\
  trace (samples.UploadFile samples.env (samples.handle true)
           "/root/secret/a.txt" "a.txt" ∅) =
    [EvStat "/root/secret/a.txt"; EvOpen "/root/secret/a.txt"].
Proof.
  exact (proj2 (proj2 (C10_stat_error_other_than_not_exist
    "acl" "content-type" "metadata" samples.env (samples.handle true)
    "/root/secret/a.txt" "a.txt" ∅
    (PathError "stat" "/root/secret/a.txt" os.EACCES)
    eq_refl eq_refl eq_refl)) _ eq_refl).
Defined.

(** ** The outcome of Upload *)

(** C5. [UploadFile] has no partial success: its outcome is a file and no
    error, or no file and an error. Once the source is open, it returns a
    file exactly when the write and the confirmatory read both succeed; the
    file then carries the given key, the handle's default bucket, the given
    source path, the size the read reported and the preview
    [https://{bucket}.s3.{region}.amazonaws.com/{key}]. When the write or the
    read fails there is no file and the error is a [FileOperationFailed]
    with that failure as cause. *)
Theorem C5_Upload_no_partial_success
    (OptACL OptContentType OptMetadata : string) (e : Env)
    (s : bs3.SimpleStorageService) (path filename : string)
    (options : gmap string types.Value) :
  let up :=
    bs3.UploadFile OptACL OptContentType OptMetadata e s path filename
      options in
  ((exists f, result up = (Some f, None)) \/
   (exists be, result up = (None, Some be))) /\
  (bs3.IsConnected s = true ->
   os.IsNotExist (os_Stat e path) = false ->
   forall file, os_Open e path = inl file ->
   let ctx := bs3.upload_context s in
   let put :=
     s3_PutObject e (bs3.Client s) ctx
       (bs3.put_params OptACL OptContentType OptMetadata s filename file
          options) in
   let head :=
     s3_HeadObject e (bs3.Client s) ctx
       {| aws.hBucket := Some (bs3.DefaultBucket s);
          aws.hKey := Some filename |} in
   (forall obj, put = None -> head = inl obj ->
      result up =
        (Some {| types.Name := filename;
                 types.Bucket := bs3.DefaultBucket s;
                 types.Path := path;
                 types.Preview :=
                   "https://" +:+ bs3.DefaultBucket s +:+ ".s3." +:+
                   bs3.Region s +:+ ".amazonaws.com/" +:+ filename;
                 types.Size := aws.ContentLength obj;
                 types.ProviderObject := Some obj |}, None)) /\
   (forall err, put = Some err ->
      result up =
        (None, Some (bifrost_error err errors.ErrFileOperationFailed))) /\
   (forall err, put = None -> head = inr err ->
      result up =
        (None, Some (bifrost_error err errors.ErrFileOperationFailed))) /\
   (is_Some (fst (result up)) <-> put = None /\ exists obj, head = inl obj)).
Proof.
  cbn zeta. split; [apply UploadFile_outcome|].
  intros Hc Hs file Ho.
  rewrite (UploadFile_opened _ _ _ _ _ _ _ _ file Hc Hs Ho).
  unfold result at 1 2 3 4. cbn [fst].
  pose proof (put_and_head_ok OptACL OptContentType OptMetadata e s path
                filename options file) as Hok.
  pose proof (put_and_head_put_fails OptACL OptContentType OptMetadata e s
                path filename options file) as Hpf.
  pose proof (put_and_head_head_fails OptACL OptContentType OptMetadata e s
                path filename options file) as Hhf.
  cbv zeta in Hok, Hpf, Hhf.
  split; [|split; [|split]].
  - intros obj Hp Hh. now rewrite (Hok obj Hp Hh).
  - intros err Hp. now rewrite (Hpf err Hp).
  - intros err Hp Hh. now rewrite (Hhf err Hp Hh).
  - destruct (s3_PutObject e _ _ _) as [err|] eqn:Hp.
    + rewrite (Hpf err eq_refl). cbn. split.
      * intros [x Hx]. discriminate Hx.
      * intros [Hx _]. discriminate Hx.
    + destruct (s3_HeadObject e _ _ _) as [obj|err] eqn:Hh.
      * rewrite (Hok obj eq_refl eq_refl). cbn. split; eauto.
      * rewrite (Hhf err eq_refl eq_refl). cbn. split.
        -- intros [x Hx]. discriminate Hx.
        -- intros [_ [obj Hx]]. discriminate Hx.
Qed.

(** C5 on the end-to-end scenario of the specification: the backend accepts
    the write and reports 1024 bytes. *)
Lemma C5_Upload_witness :
  result (samples.UploadFile samples.env (samples.handle false)
            "/tmp/photo.png" "photo.png" ∅) =
    (Some {| types.Name := "photo.png";
             types.Bucket := "assets";
             types.Path := "/tmp/photo.png";
             types.Preview :=
               "https://assets.s3.us-east-1.amazonaws.com/photo.png";
             types.Size := 1024;
             types.ProviderObject :=
               Some {| aws.ContentLength := 1024; aws.ETag := None |} |},
     None) /\
  result (samples.UploadFile samples.env_put_fails (samples.handle false)
            "/tmp/photo.png" "photo.png" ∅) =
    (None, Some (bifrost_error (errorString "AccessDenied")
                   errors.ErrFileOperationFailed)).
Proof.
  split.
  - exact (proj1 (proj2 (C5_Upload_no_partial_success
      "acl" "content-type" "metadata" samples.env (samples.handle false)
      "/tmp/photo.png" "photo.png" ∅) eq_refl eq_refl samples.photo eq_refl)
      _ eq_refl eq_refl).
  - exact (proj1 (proj2 (proj2 (C5_Upload_no_partial_success
      "acl" "content-type" "metadata" samples.env_put_fails
      (samples.handle false) "/tmp/photo.png" "photo.png" ∅)
      eq_refl eq_refl samples.photo eq_refl)) _ eq_refl).
Defined.

(** ** Option resolution *)

Section Options.

Variables OptACL OptContentType OptMetadata : string.

Let apply_option := bs3.apply_option OptACL OptContentType OptMetadata.
Let range_options := bs3.range_options OptACL OptContentType OptMetadata.
Let put_params := bs3.put_params OptACL OptContentType OptMetadata.

Let ignored := ignored OptACL OptContentType OptMetadata.

Ltac case_keys :=
  repeat match goal with
    | |- context [String.eqb ?a ?b] =>
        destruct (String.eqb_spec a b); subst; try congruence
    end.

(** Entries under different keys write different fields. *)
Lemma apply_option_comm p k1 v1 k2 v2 :
  k1 <> k2 ->
  apply_option (apply_option p (k1, v1)) (k2, v2) =
  apply_option (apply_option p (k2, v2)) (k1, v1).
Proof.
  intros Hne. unfold apply_option, bs3.apply_option.
  destruct (String.eqb_spec k1 OptACL), (String.eqb_spec k2 OptACL),
    (String.eqb_spec k1 OptContentType), (String.eqb_spec k2 OptContentType),
    (String.eqb_spec k1 OptMetadata), (String.eqb_spec k2 OptMetadata);
    subst; try congruence;
    destruct v1, v2; try reflexivity;
    repeat match goal with
      | |- context [String.eqb ?a ?b] => destruct (String.eqb a b)
      end; reflexivity.
Qed.

Lemma range_options_cons p kv l :
  range_options p (kv :: l) = range_options (apply_option p kv) l.
Proof. reflexivity. Qed.

(** The order in which the runtime yields the entries of a map does not
    matter. *)
Lemma range_options_perm l1 l2 :
  l1 ≡ₚ l2 -> NoDup l1.*1 ->
  forall p, range_options p l1 = range_options p l2.
Proof.
  induction 1 as [|x l l' Hp IH|[k1 v1] [k2 v2] l|l l' l'' Hp1 IH1 Hp2 IH2];
    intros Hnd p.
  - reflexivity.
  - rewrite !range_options_cons. apply IH.
    rewrite fmap_cons in Hnd. now apply NoDup_cons in Hnd as [_ ?].
  - rewrite !range_options_cons. f_equal. apply apply_option_comm.
    rewrite !fmap_cons in Hnd. apply NoDup_cons in Hnd as [Hin _].
    cbn in Hin. intros ->. apply Hin. left.
  - rewrite IH1 by assumption. apply IH2. now rewrite <- Hp1.
Qed.

Lemma apply_option_ACL_other p k v :
  k <> OptACL -> aws.ACL (apply_option p (k, v)) = aws.ACL p.
Proof.
  intros Hne. unfold apply_option, bs3.apply_option.
  destruct (String.eqb_spec k OptACL); [congruence|].
  destruct (String.eqb k OptContentType); [destruct v; reflexivity|].
  destruct (String.eqb k OptMetadata); destruct v; reflexivity.
Qed.

Lemma apply_option_ACL p v :
  aws.ACL (apply_option p (OptACL, v)) = resolve_ACL (aws.ACL p) (Some v).
Proof.
  unfold apply_option, bs3.apply_option, resolve_ACL.
  rewrite String.eqb_refl. destruct v; try reflexivity.
  unfold config.ACLPublicRead, config.ACLPrivate.
  destruct (String.eqb s "public-read"); [reflexivity|].
  destruct (String.eqb s "private"); reflexivity.
Qed.

Lemma range_options_ACL l :
  NoDup l.*1 ->
  forall p,
    aws.ACL (range_options p l) =
    resolve_ACL (aws.ACL p)
      ((list_to_map l : gmap string types.Value) !! OptACL).
Proof.
  induction l as [|[k v] l IH]; intros Hnd p.
  - reflexivity.
  - rewrite fmap_cons in Hnd. apply NoDup_cons in Hnd as [Hin Hnd].
    rewrite range_options_cons, (IH Hnd). cbn [list_to_map foldr curry].
    destruct (decide (k = OptACL)) as [->|Hne].
    + rewrite lookup_insert_eq.
      rewrite (not_elem_of_list_to_map_1 _ _ Hin).
      apply apply_option_ACL.
    + rewrite lookup_insert_ne by assumption.
      now rewrite apply_option_ACL_other.
Qed.

(** The grant sent to the backend is the one the specification
    prescribes. *)
Lemma put_params_ACL s filename file (options : gmap string types.Value) :
  aws.ACL (put_params s filename file options) =
  resolve_ACL (default_ACL s) (options !! OptACL).
Proof.
  unfold put_params, bs3.put_params. fold range_options.
  rewrite range_options_ACL by apply NoDup_fst_map_to_list.
  rewrite list_to_map_to_list. unfold default_ACL.
  destruct (bs3.PublicRead s); reflexivity.
Qed.

(** An entry the loop passes over leaves the request as it is without
    that entry. *)
Lemma put_params_ignored s filename file k v
    (options : gmap string types.Value) :
  ignored k v ->
  put_params s filename file (<[k:=v]> options) =
  put_params s filename file (delete k options).
Proof.
  intros Hig. rewrite <- (insert_delete_eq options).
  unfold put_params, bs3.put_params. fold range_options.
  set (p := if bs3.PublicRead s then _ else _).
  assert (Hperm : map_to_list (<[k:=v]> (delete k options))
                  ≡ₚ (k, v) :: map_to_list (delete k options)).
  { apply map_to_list_insert, lookup_delete_eq. }
  rewrite (range_options_perm _ _ Hperm) by apply NoDup_fst_map_to_list.
  rewrite range_options_cons. now rewrite Hig.
Qed.

Lemma ignored_unrecognized k v :
  k <> OptACL -> k <> OptContentType -> k <> OptMetadata -> ignored k v.
Proof.
  intros H1 H2 H3 p. unfold apply_option, bs3.apply_option.
  case_keys; reflexivity.
Qed.

Lemma ignored_ACL_mismatch v :
  (forall x, v <> types.VString x) -> ignored OptACL v.
Proof.
  intros Hv p. unfold apply_option, bs3.apply_option.
  rewrite String.eqb_refl. destruct v; try reflexivity.
  now destruct (Hv s).
Qed.

Lemma ignored_ACL_unknown x :
  x <> "public-read" -> x <> "private" -> ignored OptACL (types.VString x).
Proof.
  intros H1 H2 p. unfold apply_option, bs3.apply_option.
  rewrite String.eqb_refl.
  unfold config.ACLPublicRead, config.ACLPrivate. case_keys; reflexivity.
Qed.

Lemma ignored_ContentType_mismatch v :
  (forall x, v <> types.VString x) -> ignored OptContentType v.
Proof.
  intros Hv p. unfold apply_option, bs3.apply_option.
  destruct (String.eqb OptContentType OptACL).
  - destruct v; try reflexivity. now destruct (Hv s).
  - rewrite String.eqb_refl. destruct v; try reflexivity.
    now destruct (Hv s).
Qed.

Lemma ignored_Metadata_mismatch v :
  OptMetadata <> OptACL -> OptMetadata <> OptContentType ->
  (forall m, v <> types.VStringMap m) -> ignored OptMetadata v.
Proof.
  intros H1 H2 Hv p. unfold apply_option, bs3.apply_option.
  case_keys; destruct v; try reflexivity; now destruct (Hv m).
Qed.

(** The options reach an upload through the request only. *)
Lemma UploadFile_options e s path filename
    (o1 o2 : gmap string types.Value) :
  (forall file, put_params s filename file o1 =
                put_params s filename file o2) ->
  bs3.UploadFile OptACL OptContentType OptMetadata e s path filename o1 =
  bs3.UploadFile OptACL OptContentType OptMetadata e s path filename o2.
Proof.
  intros H.
  assert (Hpah : forall ctx file,
    bs3.put_and_head OptACL OptContentType OptMetadata e s ctx path
      filename file o1 =
    bs3.put_and_head OptACL OptContentType OptMetadata e s ctx path
      filename file o2).
  { intros ctx file. unfold bs3.put_and_head. fold put_params.
    now rewrite H. }
  unfold bs3.UploadFile.
  destruct (bs3.IsConnected s); [|reflexivity]. cbn [negb].
  unfold bind, call. cbn [fst snd].
  destruct (os.IsNotExist (os_Stat e path)); [reflexivity|].
  destruct (os_Open e path) as [file|err]; [|reflexivity].
  now rewrite Hpah.
Qed.

End Options.

(** C6. The grant sent with an upload starts from the handle's public-read
    default and is overridden by the access-control option when that is the
    string [public-read] or [private], in both directions. An entry under an
    unrecognized key, or under a recognized key with a value of the wrong
    type, changes neither the request nor the upload, and the options never
    stop an upload: once the source is open the request is sent. *)
Theorem C6_option_resolution (OptACL OptContentType OptMetadata : string) :
  NoDup [OptACL; OptContentType; OptMetadata] ->
  forall (e : Env) (s : bs3.SimpleStorageService) (path filename : string)
         (file : os.File) (options : gmap string types.Value),
  let put_params := bs3.put_params OptACL OptContentType OptMetadata in
  let UploadFile := bs3.UploadFile OptACL OptContentType OptMetadata in
  aws.ACL (put_params s filename file options) =
    resolve_ACL (default_ACL s) (options !! OptACL) /\
  (bs3.PublicRead s = true ->
   options !! OptACL = Some (types.VString "private") ->
   aws.ACL (put_params s filename file options) = "private") /\
  (bs3.PublicRead s = false ->
   options !! OptACL = Some (types.VString "public-read") ->
   aws.ACL (put_params s filename file options) = "public-read") /\
  (forall k v,
     k ∉ [OptACL; OptContentType; OptMetadata] \/
     (k = OptACL /\ forall x, v <> types.VString x) \/
     (k = OptContentType /\ forall x, v <> types.VString x) \/
     (k = OptMetadata /\ forall m, v <> types.VStringMap m) ->
     put_params s filename file (<[k:=v]> options) =
       put_params s filename file (delete k options) /\
     UploadFile e s path filename (<[k:=v]> options) =
       UploadFile e s path filename (delete k options)) /\
  (bs3.IsConnected s = true ->
   os.IsNotExist (os_Stat e path) = false ->
   os_Open e path = inl file ->
   exists rest,
     trace (UploadFile e s path filename options) =
       EvStat path :: EvOpen path ::
       EvPutObject (bs3.Client s) (bs3.upload_context s)
         (put_params s filename file options) :: rest).
Proof.
  intros Hnd e s path filename file options. cbn zeta.
  pose proof (put_params_ACL OptACL OptContentType OptMetadata s filename
                file options) as Hacl.
  split; [exact Hacl|]. split; [|split; [|split]].
  - intros Hp Ho. rewrite Hacl, Ho. reflexivity.
  - intros Hp Ho. rewrite Hacl, Ho. reflexivity.
  - intros k v Hkv.
    assert (Hig : ignored OptACL OptContentType OptMetadata k v).
    { apply NoDup_cons in Hnd as [Hn1 Hnd].
      apply NoDup_cons in Hnd as [Hn2 _].
      destruct Hkv as [Hk|[[-> Hv]|[[-> Hv]|[-> Hv]]]].
      - apply ignored_unrecognized; intros ->; apply Hk; set_solver.
      - now apply ignored_ACL_mismatch.
      - now apply ignored_ContentType_mismatch.
      - apply ignored_Metadata_mismatch; [| |assumption];
          intros Heq; [apply Hn1|apply Hn2]; rewrite Heq; set_solver. }
    split.
    + now apply put_params_ignored.
    + apply UploadFile_options. intros file'. now apply put_params_ignored.
  - intros Hc Hs Ho.
    rewrite (UploadFile_opened _ _ _ _ _ _ _ _ file Hc Hs Ho).
    cbn [trace snd].
    destruct (put_and_head_outcome OptACL OptContentType OptMetadata e s
                path filename options file) as [_ [rest Hrest]].
    cbv zeta in Hrest. rewrite Hrest. cbn. eauto.
Qed.

(** C6 on the two directions the specification names, and on an entry under
    an unknown key. *)
Lemma C6_option_resolution_witness :
  aws.ACL (samples.put_params (samples.handle true) "photo.png" samples.photo
             {["acl" := types.VString "private"]}) = "private" /\
  aws.ACL (samples.put_params (samples.handle false) "photo.png"
             samples.photo {["acl" := types.VString "public-read"]})
    = "public-read" /\
  samples.UploadFile samples.env (samples.handle true) "/tmp/photo.png"
    "photo.png" (<["cache" := types.VInt 60]> ∅) =
  samples.UploadFile samples.env (samples.handle true) "/tmp/photo.png"
    "photo.png" (delete "cache" ∅).
Proof.
  assert (Hnd : NoDup ["acl"; "content-type"; "metadata"]).
  { compute_done. }
  split; [|split].
  - exact (proj1 (proj2 (C6_option_resolution "acl" "content-type" "metadata"
      Hnd samples.env (samples.handle true) "/tmp/photo.png" "photo.png"
      samples.photo {["acl" := types.VString "private"]})) eq_refl eq_refl).
  - exact (proj1 (proj2 (proj2 (C6_option_resolution "acl" "content-type"
      "metadata" Hnd samples.env (samples.handle false) "/tmp/photo.png"
      "photo.png" samples.photo {["acl" := types.VString "public-read"]})))
      eq_refl eq_refl).
  - refine (proj2 (proj1 (proj2 (proj2 (proj2 (C6_option_resolution "acl"
      "content-type" "metadata" Hnd samples.env (samples.handle true)
      "/tmp/photo.png" "photo.png" samples.photo ∅)))) "cache"
      (types.VInt 60) _)).
    left. compute_done.
Defined.

(** ** The factory *)

Section Factory_paths.

Variable providers : gmap string string.
Variable bridgeConfigType : string.
Variable ToLower : string -> string.
Variable e : Env.

Let NewRainbowBridge :=
  bifrost.NewRainbowBridge providers bridgeConfigType ToLower e.
Let dispatch := bifrost.dispatch providers ToLower e.
Let warn_no_bucket := bifrost.warn_no_bucket providers ToLower.

Let passes_validation :=
  passes_validation providers bridgeConfigType ToLower.

Lemma NewRainbowBridge_nil :
  NewRainbowBridge None =
    ((None, Some (bifrost_error (errorString "config is nil")
                    errors.ErrBadRequest)), []).
Proof. reflexivity. Qed.

Lemma NewRainbowBridge_not_struct r :
  reflect.Kind_ (bifrost.elem r) <> reflect.Struct ->
  NewRainbowBridge (Some r) =
    ((None, Some (bifrost_error
                    (bifrost.Errorf "invalid config type: %s"
                       [reflect.Kind_String (reflect.Kind_ (bifrost.elem r))])
                    errors.ErrBadRequest)), []).
Proof.
  intros H. unfold NewRainbowBridge, bifrost.NewRainbowBridge.
  rewrite bool_decide_eq_false_2 by assumption. reflexivity.
Qed.

Lemma NewRainbowBridge_wrong_name r :
  reflect.Kind_ (bifrost.elem r) = reflect.Struct ->
  reflect.Name (bifrost.elem r) <> bridgeConfigType ->
  NewRainbowBridge (Some r) =
    ((None, Some (bifrost_error
                    (bifrost.Errorf "invalid config type: %s"
                       [reflect.Name (bifrost.elem r)])
                    errors.ErrBadRequest)), []).
Proof.
  intros Hk Hn. unfold NewRainbowBridge, bifrost.NewRainbowBridge.
  rewrite bool_decide_eq_true_2 by assumption. cbn [negb].
  apply String.eqb_neq in Hn. rewrite Hn. reflexivity.
Qed.

Lemma NewRainbowBridge_no_provider r :
  reflect.Kind_ (bifrost.elem r) = reflect.Struct ->
  reflect.Name (bifrost.elem r) = bridgeConfigType ->
  types.Provider (bifrost.deref r) = "" ->
  NewRainbowBridge (Some r) =
    ((None, Some (bifrost_error (errorString "no provider specified")
                    errors.ErrBadRequest)), []).
Proof.
  intros Hk Hn Hp. unfold NewRainbowBridge, bifrost.NewRainbowBridge.
  rewrite bool_decide_eq_true_2 by assumption. cbn [negb].
  apply String.eqb_eq in Hn. rewrite Hn, Hp. reflexivity.
Qed.

Lemma NewRainbowBridge_unregistered r :
  reflect.Kind_ (bifrost.elem r) = reflect.Struct ->
  reflect.Name (bifrost.elem r) = bridgeConfigType ->
  types.Provider (bifrost.deref r) <> "" ->
  providers !! ToLower (types.Provider (bifrost.deref r)) = None ->
  NewRainbowBridge (Some r) =
    ((None, Some (bifrost_error
                    (errorString ("invalid provider: " +:+
                                  types.Provider (bifrost.deref r)))
                    errors.ErrBadRequest)), []).
Proof.
  intros Hk Hn Hp Hr. unfold NewRainbowBridge, bifrost.NewRainbowBridge.
  rewrite bool_decide_eq_true_2 by assumption. cbn [negb].
  apply String.eqb_eq in Hn. apply String.eqb_neq in Hp.
  rewrite Hn, Hp, Hr. cbn [negb]. unfold bifrost.fail, bifrost.Errorf.
  rewrite Errorf_invalid_provider. reflexivity.
Qed.

(** Past the checks, the factory warns about a missing bucket and
    dispatches. *)
Lemma NewRainbowBridge_valid r :
  passes_validation r ->
  NewRainbowBridge (Some r) =
    bind (warn_no_bucket (bifrost.deref r))
         (fun _ => dispatch (bifrost.deref r)).
Proof.
  intros (Hk & Hn & Hp & [n Hr]).
  unfold NewRainbowBridge, bifrost.NewRainbowBridge.
  rewrite bool_decide_eq_true_2 by assumption. cbn [negb].
  apply String.eqb_eq in Hn. apply String.eqb_neq in Hp.
  rewrite Hn, Hp, Hr. reflexivity.
Qed.

(** The warning is the only thing the bucket check does. *)
Lemma warn_no_bucket_trace bc :
  Forall (fun ev => is_network ev = false) (trace (warn_no_bucket bc)) /\
  Forall (fun ev => is_filesystem ev = false) (trace (warn_no_bucket bc)).
Proof.
  unfold warn_no_bucket, bifrost.warn_no_bucket.
  destruct (String.eqb _ _); [destruct (types.EnableDebug bc)|];
    cbn; split; repeat constructor.
Qed.

(** The final switch compares the identifier as written. *)
Lemma dispatch_default bc :
  types.Provider bc <> "s3" ->
  types.Provider bc <> "gcs" ->
  types.Provider bc <> "pinata" ->
  dispatch bc =
    ((None, Some (bifrost_error
                    (errorString ("invalid provider: " +:+ types.Provider bc))
                    errors.ErrBadRequest)), []).
Proof.
  intros H1 H2 H3. unfold dispatch, bifrost.dispatch.
  apply String.eqb_neq in H1, H2, H3. rewrite H1, H2, H3.
  unfold bifrost.fail, bifrost.Errorf.
  rewrite Errorf_invalid_provider. reflexivity.
Qed.

Lemma dispatch_s3 bc :
  types.Provider bc = "s3" ->
  dispatch bc = bifrost.newSimpleStorageService providers ToLower e bc.
Proof.
  intros H. unfold dispatch, bifrost.dispatch. now rewrite H.
Qed.

Lemma dispatch_pinata bc :
  types.Provider bc = "pinata" ->
  dispatch bc = bifrost.newPinataIPFS providers ToLower e bc.
Proof.
  intros H. unfold dispatch, bifrost.dispatch. now rewrite H.
Qed.

End Factory_paths.

(** C7. Each of the four checks of the factory is terminal: a nil
    configuration, a pointee that is not a struct or not of the expected
    type name, an empty provider, and a provider whose lower-cased form is
    not in the registry all yield [BadRequest], no handle, and no call to a
    constructor or to the outside. *)
Theorem C7_validation_is_terminal
    (providers : gmap string string) (bridgeConfigType : string)
    (ToLower : string -> string) (e : Env)
    (bc : option bifrost.ConfigRef) :
  bc = None \/
  (exists r, bc = Some r /\
     (reflect.Kind_ (bifrost.elem r) <> reflect.Struct \/
      reflect.Name (bifrost.elem r) <> bridgeConfigType \/
      types.Provider (bifrost.deref r) = "" \/
      providers !! ToLower (types.Provider (bifrost.deref r)) = None)) ->
  exists err,
    bifrost.NewRainbowBridge providers bridgeConfigType ToLower e bc =
      ((None, Some (bifrost_error err errors.ErrBadRequest)), []).
Proof.
  intros [->|(r & -> & H)].
  - eexists. apply NewRainbowBridge_nil.
  - destruct (decide (reflect.Kind_ (bifrost.elem r) = reflect.Struct))
      as [Hk|Hk].
    2:{ eexists. now apply NewRainbowBridge_not_struct. }
    destruct (decide (reflect.Name (bifrost.elem r) = bridgeConfigType))
      as [Hn|Hn].
    2:{ eexists. now apply NewRainbowBridge_wrong_name. }
    destruct (decide (types.Provider (bifrost.deref r) = "")) as [Hp|Hp].
    { eexists. now apply NewRainbowBridge_no_provider. }
    destruct H as [H|[H|[H|H]]]; try contradiction.
    eexists. now apply NewRainbowBridge_unregistered.
Qed.

(** C7 on a nil configuration, a foreign type, an empty provider and an
    unsupported provider. *)
Lemma C7_validation_witness :
  (exists err, samples.NewRainbowBridge samples.env None =
     ((None, Some (bifrost_error err errors.ErrBadRequest)), [])) /\
  (exists err, samples.NewRainbowBridge samples.env
     (Some {| bifrost.elem :=
                {| reflect.Kind_ := reflect.Struct;
                   reflect.Name := "Options" |};
              bifrost.deref := samples.cfg "s3" "" |}) =
     ((None, Some (bifrost_error err errors.ErrBadRequest)), [])) /\
  (exists err, samples.NewRainbowBridge samples.env
     (bifrost.ref (samples.cfg "" "")) =
     ((None, Some (bifrost_error err errors.ErrBadRequest)), [])) /\
  (exists err, samples.NewRainbowBridge samples.env
     (bifrost.ref (samples.cfg "azure" "")) =
     ((None, Some (bifrost_error err errors.ErrBadRequest)), [])).
Proof.
  repeat split;
    apply (C7_validation_is_terminal bifrost.spec_providers "BridgeConfig"
             gostrings.ascii_ToLower samples.env).
  - left. reflexivity.
  - right. eexists. split; [reflexivity|]. right. left. cbn. discriminate.
  - right. eexists. split; [reflexivity|]. right. right. left. reflexivity.
  - right. eexists. split; [reflexivity|]. right. right. right.
    vm_compute. reflexivity.
Defined.

(** C1. The registry check lower-cases the identifier but the final switch
    does not: an identifier that passes the four checks and is not spelled
    exactly [s3], [gcs] or [pinata] ends in the default branch, so the
    factory answers [BadRequest] and builds no handle. *)
Theorem C1_case_variant_reaches_default
    (providers : gmap string string) (bridgeConfigType : string)
    (ToLower : string -> string) (e : Env) (r : bifrost.ConfigRef) :
  passes_validation providers bridgeConfigType ToLower r ->
  types.Provider (bifrost.deref r) <> "s3" ->
  types.Provider (bifrost.deref r) <> "gcs" ->
  types.Provider (bifrost.deref r) <> "pinata" ->
  result (bifrost.NewRainbowBridge providers bridgeConfigType ToLower e
            (Some r)) =
    (None, Some (bifrost_error
                   (errorString ("invalid provider: " +:+
                                 types.Provider (bifrost.deref r)))
                   errors.ErrBadRequest)).
Proof.
  intros Hv H1 H2 H3.
  rewrite (NewRainbowBridge_valid _ _ _ _ _ Hv).
  rewrite (dispatch_default _ _ _ _ H1 H2 H3).
  unfold bind, result. reflexivity.
Qed.

(** C1 on the identifiers [S3], [Gcs] and [PINATA], each of which the
    registry check accepts. *)
Lemma C1_case_variant_witness :
  (bifrost.spec_providers !! gostrings.ascii_ToLower "S3" =
     Some "Simple Storage Service" /\
   result (samples.NewRainbowBridge samples.env
             (bifrost.ref (samples.cfg "S3" ""))) =
     (None, Some (bifrost_error (errorString "invalid provider: S3")
                    errors.ErrBadRequest))) /\
  (bifrost.spec_providers !! gostrings.ascii_ToLower "Gcs" =
     Some "Google Cloud Storage" /\
   result (samples.NewRainbowBridge samples.env
             (bifrost.ref (samples.cfg "Gcs" ""))) =
     (None, Some (bifrost_error (errorString "invalid provider: Gcs")
                    errors.ErrBadRequest))) /\
  (bifrost.spec_providers !! gostrings.ascii_ToLower "PINATA" =
     Some "Pinata" /\
   result (samples.NewRainbowBridge samples.env
             (bifrost.ref (samples.cfg "PINATA" "token"))) =
     (None, Some (bifrost_error (errorString "invalid provider: PINATA")
                    errors.ErrBadRequest))).
Proof.
  assert (Hv : forall p jwt n,
    p <> "" ->
    bifrost.spec_providers !! gostrings.ascii_ToLower p = Some n ->
    passes_validation bifrost.spec_providers "BridgeConfig"
      gostrings.ascii_ToLower
      {| bifrost.elem := bifrost.BridgeConfig_type;
         bifrost.deref := samples.cfg p jwt |}).
  { intros p jwt n Hp Hn. repeat split; [exact Hp|]. exists n. exact Hn. }
  split; [|split]; (split; [vm_compute; reflexivity|]).
  - apply (C1_case_variant_reaches_default bifrost.spec_providers
             "BridgeConfig" gostrings.ascii_ToLower samples.env
             {| bifrost.elem := bifrost.BridgeConfig_type;
                bifrost.deref := samples.cfg "S3" "" |}
             (Hv "S3" "" _ ltac:(discriminate) eq_refl));
      cbn; discriminate.
  - apply (C1_case_variant_reaches_default bifrost.spec_providers
             "BridgeConfig" gostrings.ascii_ToLower samples.env
             {| bifrost.elem := bifrost.BridgeConfig_type;
                bifrost.deref := samples.cfg "Gcs" "" |}
             (Hv "Gcs" "" _ ltac:(discriminate) eq_refl));
      cbn; discriminate.
  - apply (C1_case_variant_reaches_default bifrost.spec_providers
             "BridgeConfig" gostrings.ascii_ToLower samples.env
             {| bifrost.elem := bifrost.BridgeConfig_type;
                bifrost.deref := samples.cfg "PINATA" "token" |}
             (Hv "PINATA" "token" _ ltac:(discriminate) eq_refl));
      cbn; discriminate.
Defined.

(** ** The adapter constructors *)

(** C2. For a configuration with provider [s3] that passes validation and
    authenticates, the factory returns an S3 handle that is connected and
    holds the configuration's default bucket, region, access key, secret key
    and public-read flag. The handle does not hold the configuration's
    timeout, debug flag and async flag: these are zero whatever the
    configuration says, and [Config] reads them back as zero, together with
    a public-read flag that is always false. *)
Theorem C2_s3_handle_fields
    (providers : gmap string string) (bridgeConfigType : string)
    (ToLower : string -> string) (e : Env) (r : bifrost.ConfigRef)
    (cfg : aws.Config) :
  let g := bifrost.deref r in
  passes_validation providers bridgeConfigType ToLower r ->
  types.Provider g = "s3" ->
  config_LoadDefaultConfig e (fst (bifrost.s3_load_args g))
    (snd (bifrost.s3_load_args g)) = inl cfg ->
  exists s,
    result (bifrost.NewRainbowBridge providers bridgeConfigType ToLower e
              (Some r)) = (Some (bifrost.S3Bridge s), None) /\
    bs3.IsConnected s = true /\
    bs3.Client s = Some (aws.NewFromConfig cfg) /\
    bs3.DefaultBucket s = types.DefaultBucket g /\
    bs3.Region s = types.Region g /\
    bs3.AccessKey s = types.AccessKey g /\
    bs3.SecretKey s = types.SecretKey g /\
    bs3.PublicRead s = types.PublicRead g /\
    bs3.DefaultTimeout s = 0 /\
    bs3.EnableDebug s = false /\
    bs3.UseAsync s = false /\
    bs3.Config s =
      {| types.Provider := bifrost.provider_name providers ToLower g;
         types.DefaultBucket := types.DefaultBucket g;
         types.Region := types.Region g;
         types.AccessKey := types.AccessKey g;
         types.SecretKey := types.SecretKey g;
         types.CredentialsFile := "";
         types.Project := "";
         types.PinataJWT := "";
         types.DefaultTimeout := 0;
         types.EnableDebug := false;
         types.PublicRead := false;
         types.UseAsync := false |}.
Proof.
  cbn zeta. intros Hv Hp Hload.
  rewrite (NewRainbowBridge_valid _ _ _ _ _ Hv).
  rewrite (dispatch_s3 _ _ _ _ Hp).
  unfold bifrost.newSimpleStorageService.
  destruct (bifrost.s3_load_args (bifrost.deref r)) as [ctx opts].
  cbn [fst snd] in Hload.
  unfold bind, call, result. cbn [fst snd]. rewrite Hload.
  eexists. split; [reflexivity|]. repeat split.
Qed.

(** C2 on a configuration that asks for a 30 second timeout, debugging,
    public read and async mode: the handle has none of the first, second and
    fourth, and [Config] does not show the third. *)
Lemma C2_s3_handle_witness :
  types.DefaultTimeout (samples.cfg "s3" "") = 30 /\
  types.EnableDebug (samples.cfg "s3" "") = true /\
  types.UseAsync (samples.cfg "s3" "") = true /\
  types.PublicRead (samples.cfg "s3" "") = true /\
  exists s,
    result (samples.NewRainbowBridge samples.env
              (bifrost.ref (samples.cfg "s3" ""))) =
      (Some (bifrost.S3Bridge s), None) /\
    bs3.DefaultTimeout s = 0 /\
    bs3.EnableDebug s = false /\
    bs3.UseAsync s = false /\
    types.PublicRead (bs3.Config s) = false.
Proof.
  repeat (split; [reflexivity|]).
  assert (Hv : passes_validation bifrost.spec_providers "BridgeConfig"
                 gostrings.ascii_ToLower
                 {| bifrost.elem := bifrost.BridgeConfig_type;
                    bifrost.deref := samples.cfg "s3" "" |}).
  { repeat split; [discriminate|]. eexists. vm_compute. reflexivity. }
  destruct (C2_s3_handle_fields bifrost.spec_providers "BridgeConfig"
              gostrings.ascii_ToLower samples.env
              {| bifrost.elem := bifrost.BridgeConfig_type;
                 bifrost.deref := samples.cfg "s3" "" |}
              {| aws.cfg_Region := "us-east-1"; aws.cfg_Credentials := None |}
              Hv eq_refl eq_refl)
    as (s & Hs & _ & _ & _ & _ & _ & _ & _ & Ht & Hd & Ha & _).
  exists s. repeat split; assumption.
Defined.

(** [newPinataIPFS] on any configuration: it calls nothing, refuses an
    empty token with [Unauthorized] and otherwise returns a handle that
    carries the token. *)
Lemma newPinataIPFS_outcome
    (providers : gmap string string) (ToLower : string -> string) (e : Env)
    (g : types.BridgeConfig) :
  let run := bifrost.newPinataIPFS providers ToLower e g in
  trace run = [] /\
  (types.PinataJWT g = "" ->
   result run =
     (None, Some (bifrost_error
                    (errorString "jwt is required for authentication")
                    errors.ErrUnauthorized))) /\
  (types.PinataJWT g <> "" ->
   exists p,
     result run = (Some (bifrost.PinataBridge p), None) /\
     pinata.PinataJWT p = types.PinataJWT g).
Proof.
  cbn zeta. unfold bifrost.newPinataIPFS. split; [|split].
  - destruct (String.eqb _ _); reflexivity.
  - intros Hj. rewrite Hj. reflexivity.
  - intros Hj. apply String.eqb_neq in Hj. rewrite Hj.
    eexists. split; reflexivity.
Qed.

(** C8. The pinning-service constructor, on every configuration, calls
    nothing; it answers [Unauthorized] with no handle when the token is
    empty and returns a handle carrying the token when it is not. The same
    holds of the factory on every configuration with provider [pinata] that
    passes validation, where the only thing that may precede the constructor
    is the warning about a missing bucket: no vendor SDK is called. *)
Theorem C8_pinata_token
    (providers : gmap string string) (bridgeConfigType : string)
    (ToLower : string -> string) (e : Env) (r : bifrost.ConfigRef) :
  let g := bifrost.deref r in
  let new := bifrost.newPinataIPFS providers ToLower e g in
  let run :=
    bifrost.NewRainbowBridge providers bridgeConfigType ToLower e (Some r) in
  (trace new = [] /\
   (types.PinataJWT g = "" ->
    result new =
      (None, Some (bifrost_error
                     (errorString "jwt is required for authentication")
                     errors.ErrUnauthorized))) /\
   (types.PinataJWT g <> "" ->
    exists p,
      result new = (Some (bifrost.PinataBridge p), None) /\
      pinata.PinataJWT p = types.PinataJWT g)) /\
  (passes_validation providers bridgeConfigType ToLower r ->
   types.Provider g = "pinata" ->
   result run = result new /\
   Forall (fun ev => is_network ev = false) (trace run)).
Proof.
  cbn zeta. split; [apply newPinataIPFS_outcome|].
  intros Hv Hp.
  rewrite (NewRainbowBridge_valid _ _ _ _ _ Hv).
  rewrite (dispatch_pinata _ _ _ _ Hp).
  destruct (newPinataIPFS_outcome providers ToLower e (bifrost.deref r))
    as [Htr _]. cbv zeta in Htr.
  unfold bind, result, trace in *.
  destruct (bifrost.newPinataIPFS providers ToLower e (bifrost.deref r))
    as [out tr].
  cbn [fst snd] in *. subst tr. split; [reflexivity|].
  rewrite app_nil_r. apply warn_no_bucket_trace.
Qed.

(** C8 on a configuration without a token and on one with a token. *)
Lemma C8_pinata_token_witness :
  result (samples.NewRainbowBridge samples.env
            (bifrost.ref (samples.cfg "pinata" ""))) =
    (None, Some (bifrost_error
                   (errorString "jwt is required for authentication")
                   errors.ErrUnauthorized)) /\
  Forall (fun ev => is_network ev = false)
    (trace (samples.NewRainbowBridge samples.env
              (bifrost.ref (samples.cfg "pinata" "")))) /\
  exists p,
    result (samples.NewRainbowBridge samples.env
              (bifrost.ref (samples.cfg "pinata" "eyJhbGciOi"))) =
      (Some (bifrost.PinataBridge p), None) /\
    pinata.PinataJWT p = "eyJhbGciOi".
Proof.
  assert (Hv : forall jwt,
    passes_validation bifrost.spec_providers "BridgeConfig"
      gostrings.ascii_ToLower
      {| bifrost.elem := bifrost.BridgeConfig_type;
         bifrost.deref := samples.cfg "pinata" jwt |}).
  { intros jwt. repeat split; [discriminate|].
    eexists. vm_compute. reflexivity. }
  pose proof (C8_pinata_token bifrost.spec_providers "BridgeConfig"
    gostrings.ascii_ToLower samples.env
    {| bifrost.elem := bifrost.BridgeConfig_type;
       bifrost.deref := samples.cfg "pinata" "" |}) as H0.
  pose proof (C8_pinata_token bifrost.spec_providers "BridgeConfig"
    gostrings.ascii_ToLower samples.env
    {| bifrost.elem := bifrost.BridgeConfig_type;
       bifrost.deref := samples.cfg "pinata" "eyJhbGciOi" |}) as H1.
  cbv zeta in H0, H1.
  destruct H0 as [(_ & Hempty & _) Hrun0].
  destruct H1 as [(_ & _ & Htoken) Hrun1].
  destruct (Hrun0 (Hv "") eq_refl) as [Hres0 Hnet0].
  destruct (Hrun1 (Hv "eyJhbGciOi") eq_refl) as [Hres1 _].
  split; [|split].
  - unfold samples.NewRainbowBridge, bifrost.ref.
    rewrite Hres0. apply Hempty. reflexivity.
  - exact Hnet0.
  - destruct Htoken as (p & Hp & Hjwt); [cbn; discriminate|].
    exists p. split; [|exact Hjwt].
    unfold samples.NewRainbowBridge, bifrost.ref. rewrite Hres1. exact Hp.
Defined.

(** * Further properties of the factory *)

Section Constructors.

Variable providers : gmap string string.
Variable ToLower : string -> string.
Variable e : Env.

(** The one call of [newSimpleStorageService]. *)
Lemma newSimpleStorageService_trace g :
  trace (bifrost.newSimpleStorageService providers ToLower e g) =
    [EvLoadDefaultConfig (fst (bifrost.s3_load_args g))
       (snd (bifrost.s3_load_args g))].
Proof.
  unfold bifrost.newSimpleStorageService.
  destruct (bifrost.s3_load_args g) as [ctx opts].
  unfold bind, call, trace. cbn [fst snd].
  destruct (config_LoadDefaultConfig e ctx opts); reflexivity.
Qed.

Lemma newSimpleStorageService_fails g err :
  config_LoadDefaultConfig e (fst (bifrost.s3_load_args g))
    (snd (bifrost.s3_load_args g)) = inr err ->
  result (bifrost.newSimpleStorageService providers ToLower e g) =
    (None, Some (bifrost_error err errors.ErrUnauthorized)).
Proof.
  unfold bifrost.newSimpleStorageService.
  destruct (bifrost.s3_load_args g) as [ctx opts]. cbn [fst snd].
  intros H. unfold bind, call, result. cbn [fst snd]. now rewrite H.
Qed.

Lemma newSimpleStorageService_outcome g :
  (exists s, result (bifrost.newSimpleStorageService providers ToLower e g)
             = (Some (bifrost.S3Bridge s), None)) \/
  (exists err,
     result (bifrost.newSimpleStorageService providers ToLower e g) =
       (None, Some (bifrost_error err errors.ErrUnauthorized))).
Proof.
  unfold bifrost.newSimpleStorageService.
  destruct (bifrost.s3_load_args g) as [ctx opts].
  unfold bind, call, result. cbn [fst snd].
  destruct (config_LoadDefaultConfig e ctx opts); cbn; eauto.
Qed.

Lemma newGoogleCloudStorage_unfold g :
  bifrost.newGoogleCloudStorage providers ToLower e g =
    match storage_NewClient e context.Background (gcs_credentials g) with
    | inr err =>
        ((None, Some (bifrost_error err errors.ErrUnauthorized)),
         [EvStorageNewClient context.Background (gcs_credentials g)])
    | inl client =>
        ((Some (bifrost.GCSBridge
            {| gcs.Provider := bifrost.provider_name providers ToLower g;
               gcs.DefaultBucket := types.DefaultBucket g;
               gcs.CredentialsFile := types.CredentialsFile g;
               gcs.Project := types.Project g;
               gcs.DefaultTimeout := types.DefaultTimeout g;
               gcs.Client := Some client;
               gcs.EnableDebug := types.EnableDebug g;
               gcs.PublicRead := types.PublicRead g;
               gcs.UseAsync := types.UseAsync g |}), None),
         [EvStorageNewClient context.Background (gcs_credentials g)])
    end.
Proof.
  unfold bifrost.newGoogleCloudStorage, gcs_credentials.
  destruct (String.eqb (types.CredentialsFile g) ""); cbn [negb];
    unfold bind, call; cbn [fst snd];
    destruct (storage_NewClient e context.Background _); reflexivity.
Qed.

Lemma newPinataIPFS_unfold g :
  bifrost.newPinataIPFS providers ToLower e g =
    if String.eqb (types.PinataJWT g) "" then
      ((None, Some (bifrost_error
                      (errorString "jwt is required for authentication")
                      errors.ErrUnauthorized)), [])
    else
      ((Some (bifrost.PinataBridge
          {| pinata.PinataJWT := types.PinataJWT g;
             pinata.Provider := bifrost.provider_name providers ToLower g;
             pinata.DefaultBucket := types.DefaultBucket g;
             pinata.CredentialsFile := types.CredentialsFile g;
             pinata.Project := types.Project g;
             pinata.DefaultTimeout := types.DefaultTimeout g;
             pinata.EnableDebug := types.EnableDebug g;
             pinata.PublicRead := types.PublicRead g;
             pinata.UseAsync := types.UseAsync g |}), None), []).
Proof. reflexivity. Qed.

Lemma dispatch_gcs bc :
  types.Provider bc = "gcs" ->
  bifrost.dispatch providers ToLower e bc =
  bifrost.newGoogleCloudStorage providers ToLower e bc.
Proof.
  intros H. unfold bifrost.dispatch. now rewrite H.
Qed.

(** The four ways out of the final switch. *)
Lemma dispatch_cases bc :
  (types.Provider bc = "s3" /\
   bifrost.dispatch providers ToLower e bc =
   bifrost.newSimpleStorageService providers ToLower e bc) \/
  (types.Provider bc = "gcs" /\
   bifrost.dispatch providers ToLower e bc =
   bifrost.newGoogleCloudStorage providers ToLower e bc) \/
  (types.Provider bc = "pinata" /\
   bifrost.dispatch providers ToLower e bc =
   bifrost.newPinataIPFS providers ToLower e bc) \/
  (types.Provider bc <> "s3" /\ types.Provider bc <> "gcs" /\
   types.Provider bc <> "pinata" /\
   bifrost.dispatch providers ToLower e bc =
     ((None, Some (bifrost_error
                     (errorString ("invalid provider: " +:+ types.Provider bc))
                     errors.ErrBadRequest)), [])).
Proof.
  destruct (decide (types.Provider bc = "s3")) as [H1|H1].
  { left. split; [assumption|]. now apply dispatch_s3. }
  destruct (decide (types.Provider bc = "gcs")) as [H2|H2].
  { right. left. split; [assumption|]. now apply dispatch_gcs. }
  destruct (decide (types.Provider bc = "pinata")) as [H3|H3].
  { right. right. left. split; [assumption|]. now apply dispatch_pinata. }
  right. right. right. repeat split; try assumption.
  now apply dispatch_default.
Qed.

End Constructors.

Lemma result_bind {A B} (m : IO A) (k : A -> IO B) :
  result (bind m k) = result (k (result m)).
Proof. unfold bind, result. now destruct (k (fst m)). Qed.

Lemma trace_bind {A B} (m : IO A) (k : A -> IO B) :
  trace (bind m k) = trace m ++ trace (k (result m)).
Proof. unfold bind, trace, result. now destruct (k (fst m)). Qed.

Lemma warn_no_bucket_unfold providers ToLower bc :
  bifrost.warn_no_bucket providers ToLower bc =
    (tt, if String.eqb (types.DefaultBucket bc) "" && types.EnableDebug bc
         then [EvLog (no_bucket_warning
                        (bifrost.provider_name providers ToLower bc))]
         else []).
Proof.
  unfold bifrost.warn_no_bucket.
  destruct (String.eqb _ _); [destruct (types.EnableDebug bc)|];
    reflexivity.
Qed.

Lemma NewRainbowBridge_valid_run
    (providers : gmap string string) (bridgeConfigType : string)
    (ToLower : string -> string) (e : Env) (r : bifrost.ConfigRef) :
  passes_validation providers bridgeConfigType ToLower r ->
  result (bifrost.NewRainbowBridge providers bridgeConfigType ToLower e
            (Some r)) =
    result (bifrost.dispatch providers ToLower e (bifrost.deref r)) /\
  trace (bifrost.NewRainbowBridge providers bridgeConfigType ToLower e
           (Some r)) =
    (if String.eqb (types.DefaultBucket (bifrost.deref r)) ""
        && types.EnableDebug (bifrost.deref r)
     then [EvLog (no_bucket_warning
                    (bifrost.provider_name providers ToLower
                       (bifrost.deref r)))]
     else []) ++ trace (bifrost.dispatch providers ToLower e (bifrost.deref r)).
Proof.
  intros Hv.
  rewrite (NewRainbowBridge_valid _ _ _ _ _ Hv).
  rewrite result_bind, trace_bind, warn_no_bucket_unfold. split; reflexivity.
Qed.

(** An empty default bucket is not fatal. For a configuration that passes
    the four checks, the outcome of the factory is the outcome of the final
    switch; before it, the factory logs one warning that names the provider
    exactly when the bucket is empty and debugging is on, and does nothing
    else. *)
Theorem bucket_check_is_not_fatal
    (providers : gmap string string) (bridgeConfigType : string)
    (ToLower : string -> string) (e : Env) (r : bifrost.ConfigRef) :
  passes_validation providers bridgeConfigType ToLower r ->
  let g := bifrost.deref r in
  let run :=
    bifrost.NewRainbowBridge providers bridgeConfigType ToLower e (Some r) in
  result run = result (bifrost.dispatch providers ToLower e g) /\
  trace run =
    (if String.eqb (types.DefaultBucket g) "" && types.EnableDebug g
     then [EvLog (no_bucket_warning
                    (bifrost.provider_name providers ToLower g))]
     else []) ++ trace (bifrost.dispatch providers ToLower e g).
Proof.
  intros Hv. cbn zeta. now apply NewRainbowBridge_valid_run.
Qed.

(** The bucket check on a Google Cloud Storage configuration without
    bucket and with debugging on. *)
Lemma bucket_check_witness :
  result (samples.NewRainbowBridge samples.env
            (Some (samples.valid_ref (samples.gcs_cfg "")))) =
    result (bifrost.dispatch bifrost.spec_providers gostrings.ascii_ToLower
              samples.env (samples.gcs_cfg "")) /\
  trace (samples.NewRainbowBridge samples.env
           (Some (samples.valid_ref (samples.gcs_cfg "")))) =
    [EvLog "No bucket specified for provider Google Cloud Storage. This might cause errors or require you to specify a bucket for each operation.";
     EvStorageNewClient context.Background None].
Proof.
  assert (Hv : passes_validation bifrost.spec_providers "BridgeConfig"
                 gostrings.ascii_ToLower
                 (samples.valid_ref (samples.gcs_cfg ""))).
  { repeat split; [discriminate|]. eexists. vm_compute. reflexivity. }
  destruct (bucket_check_is_not_fatal bifrost.spec_providers "BridgeConfig"
              gostrings.ascii_ToLower samples.env
              (samples.valid_ref (samples.gcs_cfg "")) Hv) as [Hres Htr].
  split; [exact Hres|].
  unfold samples.NewRainbowBridge. rewrite Htr. vm_compute. reflexivity.
Defined.

Section Factory_outcomes.

Variable providers : gmap string string.
Variable bridgeConfigType : string.
Variable ToLower : string -> string.
Variable e : Env.

Let NewRainbowBridge :=
  bifrost.NewRainbowBridge providers bridgeConfigType ToLower e.
Let dispatch := bifrost.dispatch providers ToLower e.
Let passes_validation :=
  passes_validation providers bridgeConfigType ToLower.

(** A configuration is stopped by a check, with nothing done, or passes
    all four. *)
Lemma NewRainbowBridge_checks bc :
  (exists err,
     NewRainbowBridge bc =
       ((None, Some (bifrost_error err errors.ErrBadRequest)), [])) \/
  (exists r, bc = Some r /\ passes_validation r).
Proof.
  destruct bc as [r|]; [|left; eexists; apply NewRainbowBridge_nil].
  destruct (decide (reflect.Kind_ (bifrost.elem r) = reflect.Struct))
    as [Hk|Hk].
  2:{ left. eexists. now apply NewRainbowBridge_not_struct. }
  destruct (decide (reflect.Name (bifrost.elem r) = bridgeConfigType))
    as [Hn|Hn].
  2:{ left. eexists. now apply NewRainbowBridge_wrong_name. }
  destruct (decide (types.Provider (bifrost.deref r) = "")) as [Hp|Hp].
  { left. eexists. now apply NewRainbowBridge_no_provider. }
  destruct (providers !! ToLower (types.Provider (bifrost.deref r)))
    as [n|] eqn:Hr.
  - right. exists r. split; [reflexivity|].
    repeat split; try assumption. rewrite Hr. eauto.
  - left. eexists. now apply NewRainbowBridge_unregistered.
Qed.

(** The outcomes of the final switch. *)
Lemma dispatch_outcome bc :
  (exists h, result (dispatch bc) = (Some h, None) /\
             adapter_id h = types.Provider bc) \/
  (exists err, result (dispatch bc) =
                 (None, Some (bifrost_error err errors.ErrUnauthorized)) /\
               (types.Provider bc = "s3" \/ types.Provider bc = "gcs" \/
                types.Provider bc = "pinata")) \/
  (exists err, dispatch bc =
                 ((None, Some (bifrost_error err errors.ErrBadRequest)), [])).
Proof.
  unfold dispatch.
  destruct (dispatch_cases providers ToLower e bc)
    as [[Hp ->]|[[Hp ->]|[[Hp ->]|(_ & _ & _ & ->)]]].
  - destruct (newSimpleStorageService_outcome providers ToLower e bc)
      as [[s Hs]|[err Herr]].
    + left. exists (bifrost.S3Bridge s). now rewrite Hs, Hp.
    + right. left. exists err. rewrite Herr. auto.
  - rewrite newGoogleCloudStorage_unfold.
    destruct (storage_NewClient e _ _) as [c|err].
    + left. eexists. split; [reflexivity|]. now rewrite Hp.
    + right. left. exists err. auto.
  - rewrite newPinataIPFS_unfold.
    destruct (String.eqb _ _).
    + right. left. eexists. auto.
    + left. eexists. split; [reflexivity|]. now rewrite Hp.
  - right. right. eauto.
Qed.

(** The calls of the final switch: one SDK call for [s3] and [gcs], none
    otherwise, and never the filesystem. *)
Lemma dispatch_trace bc :
  Forall (fun ev => is_filesystem ev = false) (trace (dispatch bc)) /\
  network_calls (trace (dispatch bc)) =
    if bool_decide (types.Provider bc = "s3" \/ types.Provider bc = "gcs")
    then 1%nat else 0%nat.
Proof.
  unfold dispatch.
  destruct (dispatch_cases providers ToLower e bc)
    as [[Hp ->]|[[Hp ->]|[[Hp ->]|(H1 & H2 & H3 & ->)]]].
  - rewrite newSimpleStorageService_trace.
    rewrite bool_decide_eq_true_2 by auto. split; repeat constructor.
  - rewrite newGoogleCloudStorage_unfold.
    rewrite bool_decide_eq_true_2 by auto.
    destruct (storage_NewClient e _ _); split; repeat constructor.
  - rewrite newPinataIPFS_unfold.
    rewrite bool_decide_eq_false_2 by (rewrite Hp; intros [?|?]; discriminate).
    destruct (String.eqb _ _); split; repeat constructor.
  - rewrite bool_decide_eq_false_2 by (intros [?|?]; contradiction).
    split; repeat constructor.
Qed.

End Factory_outcomes.

(** The factory returns a handle and no error, or no handle and an error
    whose kind is [BadRequest] or [Unauthorized]. An [Unauthorized] comes
    from an adapter constructor only: the configuration passed the four
    checks and its provider is spelled [s3], [gcs] or [pinata]. *)
Theorem factory_outcome
    (providers : gmap string string) (bridgeConfigType : string)
    (ToLower : string -> string) (e : Env)
    (bc : option bifrost.ConfigRef) :
  let run :=
    bifrost.NewRainbowBridge providers bridgeConfigType ToLower e bc in
  (exists h, result run = (Some h, None)) \/
  (exists err,
     result run = (None, Some (bifrost_error err errors.ErrBadRequest))) \/
  (exists err r,
     result run = (None, Some (bifrost_error err errors.ErrUnauthorized)) /\
     bc = Some r /\
     passes_validation providers bridgeConfigType ToLower r /\
     (types.Provider (bifrost.deref r) = "s3" \/
      types.Provider (bifrost.deref r) = "gcs" \/
      types.Provider (bifrost.deref r) = "pinata")).
Proof.
  cbn zeta.
  destruct (NewRainbowBridge_checks providers bridgeConfigType ToLower e bc)
    as [[err ->]|(r & -> & Hv)].
  { right. left. eauto. }
  destruct (NewRainbowBridge_valid_run providers bridgeConfigType ToLower e r
              Hv) as [-> _].
  destruct (dispatch_outcome providers ToLower e (bifrost.deref r))
    as [(h & -> & _)|[(err & -> & Hp)|[err ->]]].
  - left. eauto.
  - right. right. exists err, r. auto.
  - right. left. eauto.
Qed.

Lemma network_calls_app (l1 l2 : list Event) :
  network_calls (l1 ++ l2) = (network_calls l1 + network_calls l2)%nat.
Proof.
  unfold network_calls. now rewrite List.filter_app, length_app.
Qed.

Lemma warning_trace_quiet (b : bool) (msg : string) :
  List.filter is_network (if b then [EvLog msg] else []) = [] /\
  Forall (fun ev => is_filesystem ev = false)
    (if b then [EvLog msg] else []).
Proof. destruct b; split; repeat constructor. Qed.

(** The factory asks a vendor SDK to authenticate at most once: the calls
    counted are [config.LoadDefaultConfig] and [storage.NewClient]. For a
    configuration that passes the four checks there is exactly one such call
    when the provider is spelled [s3] or [gcs], whether or not the
    authentication then succeeds, and none otherwise; a configuration that
    fails a check causes none. *)
Theorem factory_calls
    (providers : gmap string string) (bridgeConfigType : string)
    (ToLower : string -> string) (e : Env)
    (bc : option bifrost.ConfigRef) :
  let tr :=
    trace (bifrost.NewRainbowBridge providers bridgeConfigType ToLower e bc) in
  (network_calls tr <= 1)%nat /\
  (forall r, bc = Some r ->
     passes_validation providers bridgeConfigType ToLower r ->
     network_calls tr =
       if bool_decide (types.Provider (bifrost.deref r) = "s3" \/
                       types.Provider (bifrost.deref r) = "gcs")
       then 1%nat else 0%nat) /\
  ((forall r, bc = Some r ->
      ~ passes_validation providers bridgeConfigType ToLower r) ->
   network_calls tr = 0%nat).
Proof.
  cbn zeta.
  destruct (NewRainbowBridge_checks providers bridgeConfigType ToLower e bc)
    as [[err Hrun]|(r & -> & Hv)].
  - rewrite Hrun. cbn. split; [lia|]. split; [|reflexivity].
    intros r -> Hv.
    destruct (NewRainbowBridge_valid_run providers bridgeConfigType ToLower
                e r Hv) as [_ Htr].
    rewrite Hrun in Htr. cbn [trace snd] in Htr.
    destruct (dispatch_trace providers ToLower e (bifrost.deref r))
      as [_ Hn].
    rewrite <- Hn.
    symmetry in Htr. apply app_eq_nil in Htr as [_ Hd]. now rewrite Hd.
  - destruct (NewRainbowBridge_valid_run providers bridgeConfigType ToLower
                e r Hv) as [_ ->].
    destruct (dispatch_trace providers ToLower e (bifrost.deref r))
      as [Hfs Hn].
    destruct (warning_trace_quiet
                (String.eqb (types.DefaultBucket (bifrost.deref r)) ""
                 && types.EnableDebug (bifrost.deref r))
                (no_bucket_warning
                   (bifrost.provider_name providers ToLower (bifrost.deref r))))
      as [Hq Hqfs].
    assert (Hcount :
      network_calls
        ((if String.eqb (types.DefaultBucket (bifrost.deref r)) ""
             && types.EnableDebug (bifrost.deref r)
          then [EvLog (no_bucket_warning
                         (bifrost.provider_name providers ToLower
                            (bifrost.deref r)))]
          else []) ++
         trace (bifrost.dispatch providers ToLower e (bifrost.deref r))) =
      network_calls
        (trace (bifrost.dispatch providers ToLower e (bifrost.deref r)))).
    { rewrite network_calls_app. unfold network_calls at 1. now rewrite Hq. }
    rewrite Hcount, Hn. split; [|split].
    + destruct (bool_decide _); lia.
    + intros r' [= <-] _. reflexivity.
    + intros Hnv. destruct (Hnv r eq_refl Hv).
Qed.

(** The factory on the S3 configuration of the samples, with an SDK that
    authenticates and with one that does not: one authenticating call
    either way; none for the pinning service. *)
Lemma factory_calls_witness :
  network_calls (trace (samples.NewRainbowBridge samples.env
                   (Some (samples.valid_ref (samples.cfg "s3" ""))))) = 1%nat /\
  network_calls (trace (samples.NewRainbowBridge samples.env_auth_fails
                   (Some (samples.valid_ref (samples.cfg "s3" ""))))) = 1%nat /\
  network_calls (trace (samples.NewRainbowBridge samples.env
                   (Some (samples.valid_ref (samples.cfg "pinata" "t"))))) = 0%nat.
Proof.
  assert (Hv : forall p jwt n,
    p <> "" ->
    bifrost.spec_providers !! gostrings.ascii_ToLower p = Some n ->
    passes_validation bifrost.spec_providers "BridgeConfig"
      gostrings.ascii_ToLower (samples.valid_ref (samples.cfg p jwt))).
  { intros p jwt n Hp Hn. repeat split; [exact Hp|]. exists n. exact Hn. }
  split; [|split].
  - exact (proj1 (proj2 (factory_calls bifrost.spec_providers "BridgeConfig"
      gostrings.ascii_ToLower samples.env _)) _ eq_refl
      (Hv "s3" "" _ ltac:(discriminate) eq_refl)).
  - exact (proj1 (proj2 (factory_calls bifrost.spec_providers "BridgeConfig"
      gostrings.ascii_ToLower samples.env_auth_fails _)) _ eq_refl
      (Hv "s3" "" _ ltac:(discriminate) eq_refl)).
  - exact (proj1 (proj2 (factory_calls bifrost.spec_providers "BridgeConfig"
      gostrings.ascii_ToLower samples.env _)) _ eq_refl
      (Hv "pinata" "t" _ ltac:(discriminate) eq_refl)).
Defined.

(** A handle is only ever built for an identifier spelled exactly [s3],
    [gcs] or [pinata], and it is bound to the adapter of that name: when
    the factory returns a handle, the configuration passed the four checks
    and its provider field is the identifier of the adapter returned. *)
Theorem factory_success_spelling
    (providers : gmap string string) (bridgeConfigType : string)
    (ToLower : string -> string) (e : Env)
    (bc : option bifrost.ConfigRef) (h : bifrost.RainbowBridge) :
  fst (result (bifrost.NewRainbowBridge providers bridgeConfigType ToLower e
                 bc)) = Some h ->
  exists r,
    bc = Some r /\
    passes_validation providers bridgeConfigType ToLower r /\
    types.Provider (bifrost.deref r) = adapter_id h.
Proof.
  destruct (NewRainbowBridge_checks providers bridgeConfigType ToLower e bc)
    as [[err ->]|(r & -> & Hv)].
  { cbn. discriminate. }
  destruct (NewRainbowBridge_valid_run providers bridgeConfigType ToLower
              e r Hv) as [-> _].
  intros Hh. exists r. split; [reflexivity|]. split; [assumption|].
  destruct (dispatch_outcome providers ToLower e (bifrost.deref r))
    as [(h' & Hr & Hid)|[(err & Hr & _)|[err Hr]]];
    rewrite Hr in Hh; cbn in Hh; try discriminate.
  injection Hh as <-. now rewrite Hid.
Qed.

(** The factory on a pinning-service configuration with a token. *)
Lemma factory_success_witness :
  exists r,
    Some (samples.valid_ref (samples.cfg "pinata" "eyJhbGciOi")) = Some r /\
    passes_validation bifrost.spec_providers "BridgeConfig"
      gostrings.ascii_ToLower r /\
    types.Provider (bifrost.deref r) = "pinata".
Proof.
  exact (factory_success_spelling bifrost.spec_providers "BridgeConfig"
    gostrings.ascii_ToLower samples.env
    (Some (samples.valid_ref (samples.cfg "pinata" "eyJhbGciOi")))
    (bifrost.PinataBridge
       {| pinata.PinataJWT := "eyJhbGciOi";
          pinata.Provider := "Pinata";
          pinata.DefaultBucket := "assets";
          pinata.CredentialsFile := "";
          pinata.Project := "";
          pinata.DefaultTimeout := 30;
          pinata.EnableDebug := true;
          pinata.PublicRead := true;
          pinata.UseAsync := true |})
    eq_refl).
Defined.

Lemma filter_network_warning (b : bool) (msg : string) (tr : list Event) :
  List.filter is_network ((if b then [EvLog msg] else []) ++ tr) =
  List.filter is_network tr.
Proof. destruct b; reflexivity. Qed.

(** For a validated configuration with provider [gcs] the factory makes one
    SDK call, [storage.NewClient], with the credentials file when one is
    configured and without it otherwise. When that call fails the outcome
    is [Unauthorized] with its error as cause; when it succeeds the handle
    holds the new client, the registry's name of the provider, and the
    configuration's bucket, credentials file, project, timeout, debug,
    public-read and async fields. *)
Theorem gcs_construction
    (providers : gmap string string) (bridgeConfigType : string)
    (ToLower : string -> string) (e : Env) (r : bifrost.ConfigRef) :
  let g := bifrost.deref r in
  let run :=
    bifrost.NewRainbowBridge providers bridgeConfigType ToLower e (Some r) in
  let answer := storage_NewClient e context.Background (gcs_credentials g) in
  passes_validation providers bridgeConfigType ToLower r ->
  types.Provider g = "gcs" ->
  List.filter is_network (trace run) =
    [EvStorageNewClient context.Background (gcs_credentials g)] /\
  (forall err, answer = inr err ->
     result run = (None, Some (bifrost_error err errors.ErrUnauthorized))) /\
  (forall client, answer = inl client ->
     result run =
       (Some (bifrost.GCSBridge
          {| gcs.Provider := bifrost.provider_name providers ToLower g;
             gcs.DefaultBucket := types.DefaultBucket g;
             gcs.CredentialsFile := types.CredentialsFile g;
             gcs.Project := types.Project g;
             gcs.DefaultTimeout := types.DefaultTimeout g;
             gcs.Client := Some client;
             gcs.EnableDebug := types.EnableDebug g;
             gcs.PublicRead := types.PublicRead g;
             gcs.UseAsync := types.UseAsync g |}), None)).
Proof.
  cbn zeta. intros Hv Hp.
  destruct (NewRainbowBridge_valid_run providers bridgeConfigType ToLower
              e r Hv) as [-> ->].
  rewrite filter_network_warning.
  rewrite (dispatch_gcs _ _ _ _ Hp), newGoogleCloudStorage_unfold.
  destruct (storage_NewClient e _ _) as [c|err].
  - split; [reflexivity|]. split; [discriminate|].
    intros c' [= <-]. reflexivity.
  - split; [reflexivity|]. split; [|discriminate].
    intros err' [= <-]. reflexivity.
Qed.

(** Google Cloud Storage with a credentials file, and without one against
    an SDK that finds no ambient credentials. *)
Lemma gcs_construction_witness :
  List.filter is_network
    (trace (samples.NewRainbowBridge samples.env
       (Some (samples.valid_ref (samples.gcs_cfg "/etc/gcp/key.json"))))) =
    [EvStorageNewClient context.Background (Some "/etc/gcp/key.json")] /\
  result (samples.NewRainbowBridge samples.env_auth_fails
            (Some (samples.valid_ref (samples.gcs_cfg "")))) =
    (None, Some (bifrost_error
                   (errorString "could not find default credentials")
                   errors.ErrUnauthorized)).
Proof.
  assert (Hv : forall f,
    passes_validation bifrost.spec_providers "BridgeConfig"
      gostrings.ascii_ToLower (samples.valid_ref (samples.gcs_cfg f))).
  { intros f. repeat split; [discriminate|].
    eexists. vm_compute. reflexivity. }
  split.
  - exact (proj1 (gcs_construction bifrost.spec_providers "BridgeConfig"
      gostrings.ascii_ToLower samples.env
      (samples.valid_ref (samples.gcs_cfg "/etc/gcp/key.json"))
      (Hv "/etc/gcp/key.json") eq_refl)).
  - exact (proj1 (proj2 (gcs_construction bifrost.spec_providers
      "BridgeConfig" gostrings.ascii_ToLower samples.env_auth_fails
      (samples.valid_ref (samples.gcs_cfg "")) (Hv "") eq_refl)) _ eq_refl).
Defined.

(** For a validated configuration with provider [s3] the factory makes one
    SDK call, [config.LoadDefaultConfig]. Static credentials and the region
    are passed only when the access key and the secret key are both set;
    when either is empty the shared configuration is loaded with no option
    at all, so a lone key and the region go unused. A failed load yields
    [Unauthorized] with its error as cause and no handle. *)
Theorem s3_authentication
    (providers : gmap string string) (bridgeConfigType : string)
    (ToLower : string -> string) (e : Env) (r : bifrost.ConfigRef) :
  let g := bifrost.deref r in
  let run :=
    bifrost.NewRainbowBridge providers bridgeConfigType ToLower e (Some r) in
  passes_validation providers bridgeConfigType ToLower r ->
  types.Provider g = "s3" ->
  (types.AccessKey g <> "" -> types.SecretKey g <> "" ->
   List.filter is_network (trace run) =
     [EvLoadDefaultConfig context.Background
        [aws.WithCredentialsProvider
           {| aws.Key := types.AccessKey g; aws.Secret := types.SecretKey g;
              aws.Session := "" |};
         aws.WithRegion (types.Region g)]]) /\
  (types.AccessKey g = "" \/ types.SecretKey g = "" ->
   List.filter is_network (trace run) =
     [EvLoadDefaultConfig context.TODO []]) /\
  (forall err,
     config_LoadDefaultConfig e (fst (bifrost.s3_load_args g))
       (snd (bifrost.s3_load_args g)) = inr err ->
     result run = (None, Some (bifrost_error err errors.ErrUnauthorized))).
Proof.
  cbn zeta. intros Hv Hp.
  destruct (NewRainbowBridge_valid_run providers bridgeConfigType ToLower
              e r Hv) as [-> ->].
  rewrite filter_network_warning.
  rewrite (dispatch_s3 _ _ _ _ Hp), newSimpleStorageService_trace.
  split; [|split].
  - intros Ha Hs. unfold bifrost.s3_load_args.
    apply String.eqb_neq in Ha, Hs. rewrite Ha, Hs. reflexivity.
  - intros Hk. unfold bifrost.s3_load_args.
    destruct Hk as [Hk|Hk]; rewrite Hk; cbn [String.eqb negb andb].
    + reflexivity.
    + rewrite andb_false_r. reflexivity.
  - intros err Herr. now apply newSimpleStorageService_fails.
Qed.

(** S3 with both keys, with the access key alone, and against an SDK that
    cannot load a configuration. *)
Lemma s3_authentication_witness :
  List.filter is_network
    (trace (samples.NewRainbowBridge samples.env
       (Some (samples.valid_ref (samples.cfg "s3" ""))))) =
    [EvLoadDefaultConfig context.Background
       [aws.WithCredentialsProvider
          {| aws.Key := "A"; aws.Secret := "B"; aws.Session := "" |};
        aws.WithRegion "us-east-1"]] /\
  List.filter is_network
    (trace (samples.NewRainbowBridge samples.env
       (Some (samples.valid_ref samples.s3_access_key_only)))) =
    [EvLoadDefaultConfig context.TODO []] /\
  result (samples.NewRainbowBridge samples.env_auth_fails
            (Some (samples.valid_ref (samples.cfg "s3" "")))) =
    (None, Some (bifrost_error (errorString "failed to load shared config")
                   errors.ErrUnauthorized)).
Proof.
  assert (Hv : forall g,
    types.Provider g = "s3" ->
    passes_validation bifrost.spec_providers "BridgeConfig"
      gostrings.ascii_ToLower (samples.valid_ref g)).
  { intros g Hg. repeat split; cbn; rewrite Hg; [discriminate|].
    eexists. vm_compute. reflexivity. }
  split; [|split].
  - refine (proj1 (s3_authentication bifrost.spec_providers "BridgeConfig"
      gostrings.ascii_ToLower samples.env
      (samples.valid_ref (samples.cfg "s3" ""))
      (Hv (samples.cfg "s3" "") eq_refl) eq_refl) _ _);
      cbn; discriminate.
  - refine (proj1 (proj2 (s3_authentication bifrost.spec_providers
      "BridgeConfig" gostrings.ascii_ToLower samples.env
      (samples.valid_ref samples.s3_access_key_only)
      (Hv samples.s3_access_key_only eq_refl) eq_refl)) _).
    right. reflexivity.
  - exact (proj2 (proj2 (s3_authentication bifrost.spec_providers
      "BridgeConfig" gostrings.ascii_ToLower samples.env_auth_fails
      (samples.valid_ref (samples.cfg "s3" ""))
      (Hv (samples.cfg "s3" "") eq_refl) eq_refl)) _ eq_refl).
Defined.

(** For a validated configuration with provider [pinata] and a token, the
    handle holds the token, the registry's name of the provider, and the
    configuration's bucket, credentials file, project, timeout, debug,
    public-read and async fields. *)
Theorem pinata_handle_fields
    (providers : gmap string string) (bridgeConfigType : string)
    (ToLower : string -> string) (e : Env) (r : bifrost.ConfigRef) :
  let g := bifrost.deref r in
  passes_validation providers bridgeConfigType ToLower r ->
  types.Provider g = "pinata" ->
  types.PinataJWT g <> "" ->
  result (bifrost.NewRainbowBridge providers bridgeConfigType ToLower e
            (Some r)) =
    (Some (bifrost.PinataBridge
       {| pinata.PinataJWT := types.PinataJWT g;
          pinata.Provider := bifrost.provider_name providers ToLower g;
          pinata.DefaultBucket := types.DefaultBucket g;
          pinata.CredentialsFile := types.CredentialsFile g;
          pinata.Project := types.Project g;
          pinata.DefaultTimeout := types.DefaultTimeout g;
          pinata.EnableDebug := types.EnableDebug g;
          pinata.PublicRead := types.PublicRead g;
          pinata.UseAsync := types.UseAsync g |}), None).
Proof.
  cbn zeta. intros Hv Hp Hj.
  destruct (NewRainbowBridge_valid_run providers bridgeConfigType ToLower
              e r Hv) as [-> _].
  rewrite (dispatch_pinata _ _ _ _ Hp), newPinataIPFS_unfold.
  apply String.eqb_neq in Hj. rewrite Hj. reflexivity.
Qed.

(** The pinning service with a token, a 30 second timeout and all flags
    set. *)
Lemma pinata_handle_witness :
  result (samples.NewRainbowBridge samples.env
            (Some (samples.valid_ref (samples.cfg "pinata" "eyJhbGciOi")))) =
    (Some (bifrost.PinataBridge
       {| pinata.PinataJWT := "eyJhbGciOi";
          pinata.Provider := "Pinata";
          pinata.DefaultBucket := "assets";
          pinata.CredentialsFile := "";
          pinata.Project := "";
          pinata.DefaultTimeout := 30;
          pinata.EnableDebug := true;
          pinata.PublicRead := true;
          pinata.UseAsync := true |}), None).
Proof.
  assert (Hv : passes_validation bifrost.spec_providers "BridgeConfig"
                 gostrings.ascii_ToLower
                 (samples.valid_ref (samples.cfg "pinata" "eyJhbGciOi"))).
  { repeat split; [discriminate|]. eexists. vm_compute. reflexivity. }
  refine (pinata_handle_fields bifrost.spec_providers "BridgeConfig"
    gostrings.ascii_ToLower samples.env
    (samples.valid_ref (samples.cfg "pinata" "eyJhbGciOi")) Hv eq_refl _).
  cbn. discriminate.
Defined.

Lemma Errorf_invalid_config_type (name : string) :
  bifrost.Errorf "invalid config type: %s" [name] =
  errorString ("invalid config type: " +:+ name).
Proof.
  unfold bifrost.Errorf, bs3.Errorf. cbn. rewrite append_empty_r.
  reflexivity.
Qed.

(** The checks of the factory run in a fixed order and the first one that
    fails decides the message: the kind of the pointee, then its type name,
    then the empty provider, then the registry. A pointee of the wrong type
    is reported as such whatever its provider field holds, and an empty
    provider is reported as missing whatever the registry holds. *)
Theorem validation_order
    (providers : gmap string string) (bridgeConfigType : string)
    (ToLower : string -> string) (e : Env) (r : bifrost.ConfigRef) :
  let t := bifrost.elem r in
  let g := bifrost.deref r in
  let out :=
    result (bifrost.NewRainbowBridge providers bridgeConfigType ToLower e
              (Some r)) in
  let bad_request msg :=
    (None, Some (bifrost_error (errorString msg) errors.ErrBadRequest)) in
  (reflect.Kind_ t <> reflect.Struct ->
   out = bad_request ("invalid config type: " +:+
                      reflect.Kind_String (reflect.Kind_ t))) /\
  (reflect.Kind_ t = reflect.Struct ->
   reflect.Name t <> bridgeConfigType ->
   out = bad_request ("invalid config type: " +:+ reflect.Name t)) /\
  (reflect.Kind_ t = reflect.Struct ->
   reflect.Name t = bridgeConfigType ->
   types.Provider g = "" ->
   out = bad_request "no provider specified") /\
  (reflect.Kind_ t = reflect.Struct ->
   reflect.Name t = bridgeConfigType ->
   types.Provider g <> "" ->
   providers !! ToLower (types.Provider g) = None ->
   out = bad_request ("invalid provider: " +:+ types.Provider g)).
Proof.
  cbn zeta. split; [|split; [|split]].
  - intros Hk. rewrite (NewRainbowBridge_not_struct _ _ _ _ _ Hk).
    now rewrite Errorf_invalid_config_type.
  - intros Hk Hn. rewrite (NewRainbowBridge_wrong_name _ _ _ _ _ Hk Hn).
    now rewrite Errorf_invalid_config_type.
  - intros Hk Hn Hp. now rewrite (NewRainbowBridge_no_provider _ _ _ _ _ Hk Hn Hp).
  - intros Hk Hn Hp Hr.
    now rewrite (NewRainbowBridge_unregistered _ _ _ _ _ Hk Hn Hp Hr).
Qed.

(** A pointee that is a map and has an unsupported provider, and a
    configuration of the right type without provider. *)
Lemma validation_order_witness :
  result (samples.NewRainbowBridge samples.env
            (Some {| bifrost.elem :=
                       {| reflect.Kind_ := reflect.Map; reflect.Name := "" |};
                     bifrost.deref := samples.cfg "azure" "" |})) =
    (None, Some (bifrost_error (errorString "invalid config type: map")
                   errors.ErrBadRequest)) /\
  result (samples.NewRainbowBridge samples.env
            (Some (samples.valid_ref (samples.cfg "" "")))) =
    (None, Some (bifrost_error (errorString "no provider specified")
                   errors.ErrBadRequest)).
Proof.
  split.
  - refine (proj1 (validation_order bifrost.spec_providers "BridgeConfig"
      gostrings.ascii_ToLower samples.env
      {| bifrost.elem :=
           {| reflect.Kind_ := reflect.Map; reflect.Name := "" |};
         bifrost.deref := samples.cfg "azure" "" |}) _).
    cbn. discriminate.
  - exact (proj1 (proj2 (proj2 (validation_order bifrost.spec_providers
      "BridgeConfig" gostrings.ascii_ToLower samples.env
      (samples.valid_ref (samples.cfg "" "")))))
      eq_refl eq_refl eq_refl).
Defined.

(** * Further properties of the S3 adapter *)

(** Once the source is open, [UploadFile] sends the write, sends the
    confirmatory read only when the write succeeded, with the same client
    and context and for the same bucket and key, and closes the file last
    on every path, whether the upload succeeded or failed. *)
Theorem upload_calls_after_open
    (OptACL OptContentType OptMetadata : string) (e : Env)
    (s : bs3.SimpleStorageService) (path filename : string)
    (options : gmap string types.Value) (file : os.File) :
  bs3.IsConnected s = true ->
  os.IsNotExist (os_Stat e path) = false ->
  os_Open e path = inl file ->
  let ctx := bs3.upload_context s in
  let params :=
    bs3.put_params OptACL OptContentType OptMetadata s filename file
      options in
  let input :=
    {| aws.hBucket := Some (bs3.DefaultBucket s);
       aws.hKey := Some filename |} in
  let tr :=
    trace (bs3.UploadFile OptACL OptContentType OptMetadata e s path
             filename options) in
  (forall err, s3_PutObject e (bs3.Client s) ctx params = Some err ->
     tr = [EvStat path; EvOpen path;
           EvPutObject (bs3.Client s) ctx params; EvClose file]) /\
  (s3_PutObject e (bs3.Client s) ctx params = None ->
     tr = [EvStat path; EvOpen path;
           EvPutObject (bs3.Client s) ctx params;
           EvHeadObject (bs3.Client s) ctx input; EvClose file]).
Proof.
  intros Hc Hs Ho. cbn zeta.
  rewrite (UploadFile_opened _ _ _ _ _ _ _ _ file Hc Hs Ho).
  cbn [trace snd]. split.
  - intros err Hp.
    pose proof (put_and_head_put_fails OptACL OptContentType OptMetadata e s
                  path filename options file err Hp) as H.
    cbv zeta in H. rewrite H. reflexivity.
  - intros Hp.
    destruct (s3_HeadObject e (bs3.Client s) (bs3.upload_context s)
                {| aws.hBucket := Some (bs3.DefaultBucket s);
                   aws.hKey := Some filename |}) as [obj|err] eqn:Hh.
    + pose proof (put_and_head_ok OptACL OptContentType OptMetadata e s
                    path filename options file obj Hp Hh) as H.
      cbv zeta in H. rewrite H. reflexivity.
    + pose proof (put_and_head_head_fails OptACL OptContentType OptMetadata
                    e s path filename options file err Hp Hh) as H.
      cbv zeta in H. rewrite H. reflexivity.
Qed.

(** An upload against a backend that refuses the write: no read is sent and
    the file is closed. *)
Lemma upload_calls_witness :
  trace (samples.UploadFile samples.env_put_fails (samples.handle true)
           "/tmp/photo.png" "photo.png" ∅) =
    [EvStat "/tmp/photo.png"; EvOpen "/tmp/photo.png";
     EvPutObject (Some samples.client) context.Background
       (samples.put_params (samples.handle true) "photo.png" samples.photo ∅);
     EvClose samples.photo].
Proof.
  exact (proj1 (upload_calls_after_open "acl" "content-type" "metadata"
    samples.env_put_fails (samples.handle true) "/tmp/photo.png" "photo.png"
    ∅ samples.photo eq_refl eq_refl eq_refl) _ eq_refl).
Defined.

(** The kind of an error of [UploadFile] tells what went wrong: it is
    [ClientError] exactly when the handle is not connected, [BadRequest]
    exactly when the handle is connected and the source does not exist,
    and never [Unauthorized]. *)
Theorem upload_error_kinds
    (OptACL OptContentType OptMetadata : string) (e : Env)
    (s : bs3.SimpleStorageService) (path filename : string)
    (options : gmap string types.Value) (be : errors.BifrostError) :
  snd (result (bs3.UploadFile OptACL OptContentType OptMetadata e s path
                 filename options)) = Some be ->
  (errors.ErrorCode be = errors.ErrClientError <->
   bs3.IsConnected s = false) /\
  (errors.ErrorCode be = errors.ErrBadRequest <->
   bs3.IsConnected s = true /\ os.IsNotExist (os_Stat e path) = true) /\
  errors.ErrorCode be <> errors.ErrUnauthorized.
Proof.
  destruct (bs3.IsConnected s) eqn:Hc.
  2:{ rewrite (UploadFile_disconnected _ _ _ _ _ _ _ _ Hc). cbn.
      intros [= <-]. cbn. repeat split; try discriminate; try tauto.
      intros [? _]. discriminate. }
  destruct (os.IsNotExist (os_Stat e path)) eqn:Hs.
  { rewrite (UploadFile_not_exist _ _ _ _ _ _ _ _ Hc Hs). cbn.
    intros [= <-]. cbn. repeat split; discriminate. }
  assert (Hfof : errors.ErrorCode be = errors.ErrFileOperationFailed ->
    (errors.ErrorCode be = errors.ErrClientError <-> true = false) /\
    (errors.ErrorCode be = errors.ErrBadRequest <->
     true = true /\ false = true) /\
    errors.ErrorCode be <> errors.ErrUnauthorized).
  { intros ->. repeat split; try discriminate. intros [_ ?]. discriminate. }
  destruct (os_Open e path) as [file|err] eqn:Ho.
  2:{ rewrite (UploadFile_open_fails _ _ _ _ _ _ _ _ err Hc Hs Ho). cbn.
      intros [= <-]. now apply Hfof. }
  rewrite (UploadFile_opened _ _ _ _ _ _ _ _ file Hc Hs Ho).
  cbn [result fst].
  destruct (put_and_head_outcome OptACL OptContentType OptMetadata e s path
              filename options file) as [[[f Hf]|[err Hf]] _];
    cbv zeta in Hf; rewrite Hf; cbn; intros [= <-]. now apply Hfof.
Qed.

(** The error of an upload of a file that does not exist. *)
Lemma upload_error_kinds_witness :
  (errors.ErrBadRequest = errors.ErrBadRequest <->
   bs3.IsConnected (samples.handle true) = true /\
   os.IsNotExist (os_Stat samples.env "/tmp/none") = true).
Proof.
  exact (proj1 (proj2 (upload_error_kinds "acl" "content-type" "metadata"
    samples.env (samples.handle true) "/tmp/none" "photo.png" ∅
    (bifrost_error (errorString "file does not exist: /tmp/none")
       errors.ErrBadRequest) eq_refl))).
Defined.

Section Request.

Variables OptACL OptContentType OptMetadata : string.

Let apply_option := bs3.apply_option OptACL OptContentType OptMetadata.
Let range_options := bs3.range_options OptACL OptContentType OptMetadata.
Let put_params := bs3.put_params OptACL OptContentType OptMetadata.

(** No entry touches the bucket, the key or the body. *)
Lemma apply_option_fixed p kv :
  aws.Bucket (apply_option p kv) = aws.Bucket p /\
  aws.Key_ (apply_option p kv) = aws.Key_ p /\
  aws.Body (apply_option p kv) = aws.Body p.
Proof.
  destruct kv as [k v]. unfold apply_option, bs3.apply_option.
  destruct (String.eqb k OptACL);
    [|destruct (String.eqb k OptContentType);
      [|destruct (String.eqb k OptMetadata)]];
    destruct v; auto;
    repeat match goal with
      | |- context [String.eqb ?a ?b] => destruct (String.eqb a b)
      end; auto.
Qed.

Lemma range_options_fixed l :
  forall p,
    aws.Bucket (range_options p l) = aws.Bucket p /\
    aws.Key_ (range_options p l) = aws.Key_ p /\
    aws.Body (range_options p l) = aws.Body p.
Proof.
  induction l as [|kv l IH]; intros p; [auto|].
  change (range_options p (kv :: l))
    with (range_options (apply_option p kv) l).
  destruct (IH (apply_option p kv)) as (-> & -> & ->).
  apply apply_option_fixed.
Qed.

Lemma apply_option_ContentType_other p k v :
  k <> OptContentType ->
  aws.ContentType (apply_option p (k, v)) = aws.ContentType p.
Proof.
  intros Hne. unfold apply_option, bs3.apply_option.
  destruct (String.eqb k OptACL).
  { destruct v; try reflexivity.
    repeat match goal with
      | |- context [String.eqb ?a ?b] => destruct (String.eqb a b)
      end; reflexivity. }
  destruct (String.eqb_spec k OptContentType); [congruence|].
  destruct (String.eqb k OptMetadata); destruct v; reflexivity.
Qed.

Lemma apply_option_ContentType p v :
  OptContentType <> OptACL ->
  aws.ContentType (apply_option p (OptContentType, v)) =
    match resolve_ContentType (Some v) with
    | Some x => Some x
    | None => aws.ContentType p
    end.
Proof.
  intros Hne. unfold apply_option, bs3.apply_option.
  apply String.eqb_neq in Hne. rewrite Hne, String.eqb_refl.
  destruct v; reflexivity.
Qed.

Lemma range_options_ContentType l :
  OptContentType <> OptACL ->
  NoDup l.*1 ->
  forall p,
    aws.ContentType (range_options p l) =
      match resolve_ContentType
              ((list_to_map l : gmap string types.Value) !! OptContentType)
      with
      | Some x => Some x
      | None => aws.ContentType p
      end.
Proof.
  intros Hne. induction l as [|[k v] l IH]; intros Hnd p.
  - reflexivity.
  - rewrite fmap_cons in Hnd. apply NoDup_cons in Hnd as [Hin Hnd].
    change (range_options p ((k, v) :: l))
      with (range_options (apply_option p (k, v)) l).
    rewrite (IH Hnd). cbn [list_to_map foldr curry].
    destruct (decide (k = OptContentType)) as [->|Hk].
    + rewrite lookup_insert_eq.
      rewrite (not_elem_of_list_to_map_1 _ _ Hin).
      now apply apply_option_ContentType.
    + rewrite lookup_insert_ne by assumption.
      now rewrite apply_option_ContentType_other.
Qed.

Lemma apply_option_Metadata_other p k v :
  k <> OptMetadata ->
  aws.Metadata (apply_option p (k, v)) = aws.Metadata p.
Proof.
  intros Hne. unfold apply_option, bs3.apply_option.
  destruct (String.eqb k OptACL).
  { destruct v; try reflexivity.
    repeat match goal with
      | |- context [String.eqb ?a ?b] => destruct (String.eqb a b)
      end; reflexivity. }
  destruct (String.eqb k OptContentType); [destruct v; reflexivity|].
  destruct (String.eqb_spec k OptMetadata); [congruence|reflexivity].
Qed.

Lemma apply_option_Metadata p v :
  OptMetadata <> OptACL -> OptMetadata <> OptContentType ->
  aws.Metadata (apply_option p (OptMetadata, v)) =
    match resolve_Metadata (Some v) with
    | Some m => Some m
    | None => aws.Metadata p
    end.
Proof.
  intros H1 H2. unfold apply_option, bs3.apply_option.
  apply String.eqb_neq in H1, H2. rewrite H1, H2, String.eqb_refl.
  destruct v; reflexivity.
Qed.

Lemma range_options_Metadata l :
  OptMetadata <> OptACL -> OptMetadata <> OptContentType ->
  NoDup l.*1 ->
  forall p,
    aws.Metadata (range_options p l) =
      match resolve_Metadata
              ((list_to_map l : gmap string types.Value) !! OptMetadata)
      with
      | Some m => Some m
      | None => aws.Metadata p
      end.
Proof.
  intros H1 H2. induction l as [|[k v] l IH]; intros Hnd p.
  - reflexivity.
  - rewrite fmap_cons in Hnd. apply NoDup_cons in Hnd as [Hin Hnd].
    change (range_options p ((k, v) :: l))
      with (range_options (apply_option p (k, v)) l).
    rewrite (IH Hnd). cbn [list_to_map foldr curry].
    destruct (decide (k = OptMetadata)) as [->|Hk].
    + rewrite lookup_insert_eq.
      rewrite (not_elem_of_list_to_map_1 _ _ Hin).
      now apply apply_option_Metadata.
    + rewrite lookup_insert_ne by assumption.
      now rewrite apply_option_Metadata_other.
Qed.

Lemma PutObjectInput_eta (p : aws.PutObjectInput) :
  p = {| aws.Bucket := aws.Bucket p; aws.Key_ := aws.Key_ p;
         aws.Body := aws.Body p; aws.ACL := aws.ACL p;
         aws.ContentType := aws.ContentType p;
         aws.Metadata := aws.Metadata p |}.
Proof. now destruct p. Qed.

Lemma put_params_fields s filename file (options : gmap string types.Value) :
  NoDup [OptACL; OptContentType; OptMetadata] ->
  put_params s filename file options =
    {| aws.Bucket := Some (bs3.DefaultBucket s);
       aws.Key_ := Some filename;
       aws.Body := Some file;
       aws.ACL := resolve_ACL (default_ACL s) (options !! OptACL);
       aws.ContentType := resolve_ContentType (options !! OptContentType);
       aws.Metadata := resolve_Metadata (options !! OptMetadata) |}.
Proof.
  intros Hnd.
  apply NoDup_cons in Hnd as [Hn1 Hnd]. apply NoDup_cons in Hnd as [Hn2 _].
  assert (H21 : OptContentType <> OptACL) by (intros Heq; apply Hn1; rewrite Heq; left).
  assert (H31 : OptMetadata <> OptACL)
    by (intros Heq; apply Hn1; rewrite Heq; right; left).
  assert (H32 : OptMetadata <> OptContentType)
    by (intros Heq; apply Hn2; rewrite Heq; left).
  rewrite (PutObjectInput_eta (put_params s filename file options)).
  rewrite (put_params_ACL OptACL OptContentType OptMetadata).
  unfold put_params, bs3.put_params. fold range_options.
  set (p0 := if bs3.PublicRead s then _ else _).
  destruct (range_options_fixed (map_to_list options) p0) as (-> & -> & ->).
  rewrite (range_options_ContentType _ H21 (NoDup_fst_map_to_list options)).
  rewrite (range_options_Metadata _ H31 H32 (NoDup_fst_map_to_list options)).
  rewrite list_to_map_to_list.
  assert (Hp0 : aws.Bucket p0 = Some (bs3.DefaultBucket s) /\
                aws.Key_ p0 = Some filename /\ aws.Body p0 = Some file /\
                aws.ContentType p0 = None /\ aws.Metadata p0 = None).
  { unfold p0. destruct (bs3.PublicRead s); cbn; auto. }
  destruct Hp0 as (-> & -> & -> & -> & ->).
  destruct (resolve_ContentType _), (resolve_Metadata _); reflexivity.
Qed.

(** The request of an upload without options. *)
Lemma put_params_empty s filename file :
  put_params s filename file ∅ =
    (if bs3.PublicRead s
     then bs3.set_ACL
            {| aws.Bucket := Some (bs3.DefaultBucket s);
               aws.Key_ := Some filename; aws.Body := Some file;
               aws.ACL := ""; aws.ContentType := None;
               aws.Metadata := None |} aws.ObjectCannedACLPublicRead
     else {| aws.Bucket := Some (bs3.DefaultBucket s);
             aws.Key_ := Some filename; aws.Body := Some file;
             aws.ACL := ""; aws.ContentType := None;
             aws.Metadata := None |}).
Proof.
  unfold put_params, bs3.put_params. rewrite map_to_list_empty. reflexivity.
Qed.

Lemma range_options_enumeration s filename file
    (l : list (string * types.Value)) :
  NoDup l.*1 ->
  range_options (put_params s filename file ∅) l =
  put_params s filename file (list_to_map l).
Proof.
  intros Hnd. rewrite put_params_empty.
  unfold put_params, bs3.put_params. fold range_options.
  unfold aws.String_.
  symmetry. apply range_options_perm.
  - now apply map_to_list_to_map.
  - apply NoDup_fst_map_to_list.
Qed.

End Request.

(** The request [UploadFile] sends is a function of the handle and of the
    three recognized entries of the options map only. Bucket, key and body
    are the handle's default bucket, the given key and the opened file; the
    content type is the string under the content-type key, if any; the
    metadata is the string map under the metadata key, if any; the grant is
    the access-control option or the handle's default. No option can
    redirect the upload to another bucket or key. *)
Theorem upload_request
    (OptACL OptContentType OptMetadata : string)
    (s : bs3.SimpleStorageService) (filename : string) (file : os.File)
    (options : gmap string types.Value) :
  NoDup [OptACL; OptContentType; OptMetadata] ->
  bs3.put_params OptACL OptContentType OptMetadata s filename file options =
    {| aws.Bucket := Some (bs3.DefaultBucket s);
       aws.Key_ := Some filename;
       aws.Body := Some file;
       aws.ACL := resolve_ACL (default_ACL s) (options !! OptACL);
       aws.ContentType := resolve_ContentType (options !! OptContentType);
       aws.Metadata := resolve_Metadata (options !! OptMetadata) |}.
Proof. apply put_params_fields. Qed.

(** A request with a content type, a grant, metadata of the wrong type and
    an attempt to name another bucket. *)
Lemma upload_request_witness :
  samples.put_params (samples.handle true) "photo.png" samples.photo
    (<["content-type" := types.VString "image/png"]>
       (<["acl" := types.VString "private"]>
          (<["metadata" := types.VString "oops"]>
             (<["bucket" := types.VString "elsewhere"]> ∅)))) =
    {| aws.Bucket := Some "assets";
       aws.Key_ := Some "photo.png";
       aws.Body := Some samples.photo;
       aws.ACL := "private";
       aws.ContentType := Some "image/png";
       aws.Metadata := None |}.
Proof.
  assert (Hnd : NoDup ["acl"; "content-type"; "metadata"]) by compute_done.
  exact (upload_request "acl" "content-type" "metadata" (samples.handle true)
           "photo.png" samples.photo _ Hnd).
Defined.

(** The order in which the runtime yields the entries of the options map
    does not affect the request: the loop over any two enumerations of the
    same entries ends in the same request, the one for the map holding
    them. *)
Theorem options_order_is_irrelevant
    (OptACL OptContentType OptMetadata : string)
    (s : bs3.SimpleStorageService) (filename : string) (file : os.File)
    (l1 l2 : list (string * types.Value)) :
  NoDup l1.*1 ->
  l1 ≡ₚ l2 ->
  let range_options := bs3.range_options OptACL OptContentType OptMetadata in
  let put_params := bs3.put_params OptACL OptContentType OptMetadata in
  range_options (put_params s filename file ∅) l1 =
    range_options (put_params s filename file ∅) l2 /\
  range_options (put_params s filename file ∅) l1 =
    put_params s filename file (list_to_map l1).
Proof.
  intros Hnd Hperm. cbn zeta. split.
  - now apply range_options_perm.
  - now apply range_options_enumeration.
Qed.

(** Two entries in both orders. *)
Lemma options_order_witness :
  bs3.range_options "acl" "content-type" "metadata"
    (samples.put_params (samples.handle true) "photo.png" samples.photo ∅)
    [("acl", types.VString "private");
     ("content-type", types.VString "image/png")] =
  bs3.range_options "acl" "content-type" "metadata"
    (samples.put_params (samples.handle true) "photo.png" samples.photo ∅)
    [("content-type", types.VString "image/png");
     ("acl", types.VString "private")].
Proof.
  refine (proj1 (options_order_is_irrelevant "acl" "content-type" "metadata"
    (samples.handle true) "photo.png" samples.photo
    [("acl", types.VString "private");
     ("content-type", types.VString "image/png")]
    [("content-type", types.VString "image/png");
     ("acl", types.VString "private")] _ _)).
  - compute_done.
  - apply perm_swap.
Defined.

Lemma wrap64_range (z : Z) : - 2 ^ 63 <= gotime.wrap64 z < 2 ^ 63.
Proof.
  unfold gotime.wrap64.
  pose proof (Z.mod_pos_bound (z + 2 ^ 63) (2 ^ 64) ltac:(lia)). lia.
Qed.

Lemma wrap64_small (z : Z) :
  - 2 ^ 63 <= z < 2 ^ 63 -> gotime.wrap64 z = z.
Proof.
  intros H. unfold gotime.wrap64. rewrite Z.mod_small by lia. lia.
Qed.

(** The timeout of an upload. A handle whose timeout is zero or negative
    uploads without deadline. A timeout of 1 to 9223372036 seconds bounds
    the upload by exactly that many seconds. A larger timeout overflows the
    64-bit nanosecond count: the bound is then not the configured one. *)
Theorem upload_timeout (s : bs3.SimpleStorageService) :
  let t := bs3.DefaultTimeout s in
  (t <= 0 -> bs3.upload_context s = context.Background) /\
  (0 < t <= 9223372036 ->
   bs3.upload_context s =
     context.WithTimeout context.Background (t * 1000000000)) /\
  (9223372036 < t ->
   exists d,
     bs3.upload_context s = context.WithTimeout context.Background d /\
     d < t * 1000000000).
Proof.
  cbn zeta. unfold bs3.upload_context. split; [|split].
  - intros H. destruct (Z.ltb_spec 0 (bs3.DefaultTimeout s)); [lia|].
    reflexivity.
  - intros H. destruct (Z.ltb_spec 0 (bs3.DefaultTimeout s)); [|lia].
    unfold gotime.seconds, gotime.Second.
    rewrite (wrap64_small (bs3.DefaultTimeout s)) by lia.
    rewrite wrap64_small by lia. reflexivity.
  - intros H. destruct (Z.ltb_spec 0 (bs3.DefaultTimeout s)); [|lia].
    eexists. split; [reflexivity|].
    pose proof (wrap64_range
      (gotime.wrap64 (bs3.DefaultTimeout s) * gotime.Second)).
    unfold gotime.seconds. lia.
Qed.

(** A handle with a 30 second timeout. *)
Lemma upload_timeout_witness :
  bs3.upload_context
    {| bs3.Provider := "Simple Storage Service";
       bs3.DefaultBucket := "assets"; bs3.Region := "us-east-1";
       bs3.AccessKey := "A"; bs3.SecretKey := "B";
       bs3.DefaultTimeout := 30; bs3.EnableDebug := false;
       bs3.PublicRead := false; bs3.UseAsync := false;
       bs3.Client := Some samples.client |} =
    context.WithTimeout context.Background 30000000000.
Proof.
  refine (proj1 (proj2 (upload_timeout _)) _). cbn. lia.
Defined.

(** The file of a successful upload, read off the handle. *)
Lemma UploadFile_success_fields
    (OptACL OptContentType OptMetadata : string) (e : Env)
    (s : bs3.SimpleStorageService) (path filename : string)
    (options : gmap string types.Value) (f : types.UploadedFile) :
  fst (result (bs3.UploadFile OptACL OptContentType OptMetadata e s path
                 filename options)) = Some f ->
  bs3.IsConnected s = true /\
  types.Name f = filename /\
  types.Bucket f = bs3.DefaultBucket s /\
  types.Path f = path /\
  types.Preview f =
    "https://" +:+ bs3.DefaultBucket s +:+ ".s3." +:+ bs3.Region s +:+
    ".amazonaws.com/" +:+ filename.
Proof.
  destruct (bs3.IsConnected s) eqn:Hc.
  2:{ rewrite (UploadFile_disconnected _ _ _ _ _ _ _ _ Hc). discriminate. }
  destruct (os.IsNotExist (os_Stat e path)) eqn:Hs.
  { rewrite (UploadFile_not_exist _ _ _ _ _ _ _ _ Hc Hs). discriminate. }
  destruct (os_Open e path) as [file|err] eqn:Ho.
  2:{ rewrite (UploadFile_open_fails _ _ _ _ _ _ _ _ err Hc Hs Ho).
      discriminate. }
  rewrite (UploadFile_opened _ _ _ _ _ _ _ _ file Hc Hs Ho).
  cbn [result fst].
  pose proof (put_and_head_ok OptACL OptContentType OptMetadata e s path
                filename options file) as Hok.
  pose proof (put_and_head_put_fails OptACL OptContentType OptMetadata e s
                path filename options file) as Hpf.
  pose proof (put_and_head_head_fails OptACL OptContentType OptMetadata e s
                path filename options file) as Hhf.
  cbv zeta in Hok, Hpf, Hhf.
  destruct (s3_PutObject e _ _ _) as [err|] eqn:Hp.
  { rewrite (Hpf err eq_refl). discriminate. }
  destruct (s3_HeadObject e _ _ _) as [obj|err] eqn:Hh.
  2:{ rewrite (Hhf err eq_refl eq_refl). discriminate. }
  rewrite (Hok obj eq_refl eq_refl). cbn. intros [= <-]. cbn. auto.
Qed.

(** The S3 handle the factory builds, read off the configuration. *)
Lemma factory_s3_handle
    (providers : gmap string string) (bridgeConfigType : string)
    (ToLower : string -> string) (e : Env) (r : bifrost.ConfigRef)
    (s : bs3.SimpleStorageService) :
  fst (result (bifrost.NewRainbowBridge providers bridgeConfigType ToLower e
                 (Some r))) = Some (bifrost.S3Bridge s) ->
  bs3.IsConnected s = true /\
  bs3.DefaultBucket s = types.DefaultBucket (bifrost.deref r) /\
  bs3.Region s = types.Region (bifrost.deref r) /\
  bs3.PublicRead s = types.PublicRead (bifrost.deref r) /\
  bs3.DefaultTimeout s = 0.
Proof.
  destruct (NewRainbowBridge_checks providers bridgeConfigType ToLower e
              (Some r)) as [[err ->]|(r' & [= <-] & Hv)].
  { discriminate. }
  destruct (NewRainbowBridge_valid_run providers bridgeConfigType ToLower
              e r Hv) as [-> _].
  destruct (dispatch_cases providers ToLower e (bifrost.deref r))
    as [[Hp ->]|[[Hp ->]|[[Hp ->]|(_ & _ & _ & ->)]]].
  - unfold bifrost.newSimpleStorageService.
    destruct (bifrost.s3_load_args (bifrost.deref r)) as [ctx opts].
    unfold bind, call, result. cbn [fst snd].
    destruct (config_LoadDefaultConfig e ctx opts); cbn; [|discriminate].
    intros [= <-]. cbn. auto.
  - rewrite newGoogleCloudStorage_unfold.
    destruct (storage_NewClient e _ _); discriminate.
  - rewrite newPinataIPFS_unfold. destruct (String.eqb _ _); discriminate.
  - discriminate.
Qed.

(** What a configuration means for the uploads of the S3 handle built from
    it. The handle is connected; every file it uploads is reported under
    the configuration's default bucket, with a preview built from that
    bucket and the configuration's region; the default grant of its
    requests is the configuration's public-read flag. The configuration's
    timeout is not carried over: the handle uploads without deadline. *)
Theorem s3_handle_uploads
    (providers : gmap string string) (bridgeConfigType : string)
    (ToLower : string -> string) (e : Env) (r : bifrost.ConfigRef)
    (s : bs3.SimpleStorageService) :
  fst (result (bifrost.NewRainbowBridge providers bridgeConfigType ToLower e
                 (Some r))) = Some (bifrost.S3Bridge s) ->
  let g := bifrost.deref r in
  bs3.IsConnected s = true /\
  bs3.upload_context s = context.Background /\
  (forall OptACL OptContentType OptMetadata filename file options,
     aws.ACL (bs3.put_params OptACL OptContentType OptMetadata s filename
                file options) =
       resolve_ACL (if types.PublicRead g then "public-read" else "")
         (options !! OptACL)) /\
  (forall OptACL OptContentType OptMetadata e' path filename options f,
     fst (result (bs3.UploadFile OptACL OptContentType OptMetadata e' s path
                    filename options)) = Some f ->
     types.Name f = filename /\
     types.Bucket f = types.DefaultBucket g /\
     types.Path f = path /\
     types.Preview f =
       "https://" +:+ types.DefaultBucket g +:+ ".s3." +:+ types.Region g +:+
       ".amazonaws.com/" +:+ filename).
Proof.
  intros Hh. cbn zeta.
  destruct (factory_s3_handle _ _ _ _ _ _ Hh) as (Hc & Hb & Hr & Hpr & Ht).
  split; [assumption|]. split; [|split].
  - unfold bs3.upload_context. now rewrite Ht.
  - intros. rewrite put_params_ACL. unfold default_ACL. now rewrite Hpr.
  - intros OptACL OptContentType OptMetadata e' path filename options f Hf.
    destruct (UploadFile_success_fields _ _ _ _ _ _ _ _ _ Hf)
      as (_ & Hn & Hbk & Hpa & Hpv).
    rewrite <- Hb, <- Hr. auto.
Qed.

(** The S3 configuration of the samples asks for a 30 second timeout; the
    handle built from it uploads without deadline, into [assets]. *)
Lemma s3_handle_uploads_witness :
  types.DefaultTimeout (samples.cfg "s3" "") = 30 /\
  bs3.upload_context (samples.handle true) = context.Background /\
  (forall f,
     fst (result (samples.UploadFile samples.env (samples.handle true)
                    "/tmp/photo.png" "photo.png" ∅)) = Some f ->
     types.Bucket f = "assets").
Proof.
  pose proof (s3_handle_uploads bifrost.spec_providers "BridgeConfig"
    gostrings.ascii_ToLower samples.env
    (samples.valid_ref (samples.cfg "s3" "")) (samples.handle true) eq_refl)
    as (_ & Hctx & _ & Hup).
  split; [reflexivity|]. split; [exact Hctx|].
  intros f Hf.
  exact (proj1 (proj2 (Hup "acl" "content-type" "metadata" samples.env
    "/tmp/photo.png" "photo.png" ∅ f Hf))).
Defined.
